(** * AiResumeAnalyzer: the Flask backend of [app.py], embedded and verified

    The development embeds the request pipeline of [app.py]:
    [pdf_to_text], [remove_code_fences], [call_gemini], the [/upload] view
    [upload_and_analyze] and the process-wide [handle_exception].

    Python values are modelled as the code has them: a [str] is a sequence
    of Unicode code points, a [dict] is a finite map keyed by [str], a file
    stream is a byte buffer with a read position.  What the program
    delegates to -- PyMuPDF, the Gemini client, [json.loads], the console
    behind [print], the encoder behind [jsonify] on deeply nested values --
    is a parameter of the model; concrete stand-ins are supplied only where
    an example needs to run. *)

From Stdlib Require Import NArith ZArith List Ascii String Strings.Byte SpecFloat Lia.
From Stdlib Require Import DecimalString.
From stdpp Require Import base option list gmap fin_maps.

Set Warnings "-clear-no-such-hyp".

Local Open Scope N_scope.

(** ** Python strings *)

(** A Python [str] is a sequence of code points; [len], slicing and
    [startswith] all count code points. *)
Abbreviation pystr := (list N).

(** ASCII literals of the source, as code-point sequences. *)
Definition lit (s : string) : pystr :=
  map (fun a => N_of_ascii a) (list_ascii_of_string s).

(** [str.isspace] on one code point, the table of CPython's
    [_PyUnicode_IsWhitespace]; it is what [str.strip()] without an
    argument removes. *)
Definition is_space (c : N) : bool :=
  ((9 <=? c) && (c <=? 13)) ||
  ((28 <=? c) && (c <=? 32)) ||
  (c =? 133) || (c =? 160) || (c =? 5760) ||
  ((8192 <=? c) && (c <=? 8202)) ||
  (c =? 8232) || (c =? 8233) || (c =? 8239) || (c =? 8287) || (c =? 12288).

Fixpoint lstrip (s : pystr) : pystr :=
  match s with
  | c :: t => if is_space c then lstrip t else s
  | [] => []
  end.

Definition rstrip (s : pystr) : pystr := rev (lstrip (rev s)).

(** [text.strip()] *)
Definition strip (s : pystr) : pystr := rstrip (lstrip s).

(** [text.startswith(p)] *)
Fixpoint startswith (text p : pystr) {struct p} : bool :=
  match p, text with
  | [], _ => true
  | _ :: _, [] => false
  | a :: p', b :: t => (a =? b) && startswith t p'
  end.

(** [text.endswith(p)] *)
Definition endswith (text p : pystr) : bool :=
  startswith (rev text) (rev p).

(** [text[n:]] for a literal [n >= 0] *)
Definition slice_from (n : nat) (text : pystr) : pystr := drop n text.

(** [text[:n]] for a literal [n >= 0] *)
Definition slice_to (n : nat) (text : pystr) : pystr := take n text.

(** [text[:-n]] for a literal [n > 0] *)
Definition slice_to_neg (n : nat) (text : pystr) : pystr :=
  take (length text - n) text.

Definition fence : pystr := lit "```".
Definition fence_json : pystr := lit "```json".

(** [remove_code_fences], lines 95-103. *)
Definition remove_code_fences (text : pystr) : pystr :=
  let text := strip text in
  let text :=
    if startswith text fence_json then strip (slice_from 7 text)
    else if startswith text fence then strip (slice_from 3 text)
    else text in
  let text :=
    if endswith text fence then strip (slice_to_neg 3 text)
    else text in
  text.

(** A string begins (ends) with a character that [strip] keeps. *)
Definition head_kept (s : pystr) : bool :=
  match s with c :: _ => negb (is_space c) | [] => true end.

Definition last_kept (s : pystr) : bool := head_kept (rev s).

(** [needle in text] on strings *)
Definition str_contains (text needle : pystr) : Prop :=
  exists before after, text = before ++ needle ++ after.

(** An opening fence in front of [body]: the JSON opener, or the bare
    fence when what follows does not itself begin with [json] (the first
    check would read the two together as the JSON opener). *)
Definition opening_fence (opener body : pystr) : Prop :=
  opener = fence_json \/
  (opener = fence /\ startswith body (lit "json") = false).

(** ** Python values and exceptions *)

(** The values [json.loads] can produce, which are also the values the
    program builds for its own dictionaries.  A [dict] keeps one value per
    key; equality of dictionaries ignores insertion order, as in Python. *)
#[warnings="-register-all"] Inductive pyval : Type :=
| PyNone
| PyBool (b : bool)
| PyInt (z : Z)
| PyFloat (f : spec_float)
| PyStr (s : pystr)
| PyList (l : list pyval)
| PyDict (d : gmap pystr pyval).

(** [type(v).__name__] *)
Definition type_name (v : pyval) : pystr :=
  match v with
  | PyNone => lit "NoneType"
  | PyBool _ => lit "bool"
  | PyInt _ => lit "int"
  | PyFloat _ => lit "float"
  | PyStr _ => lit "str"
  | PyList _ => lit "list"
  | PyDict _ => lit "dict"
  end.

(** How deep lists and dictionaries nest in a value: what a recursive
    encoder descends. *)
Fixpoint depth (v : pyval) : nat :=
  match v with
  | PyList l => S (foldr (fun x acc => max (depth x) acc) 0%nat l)
  | PyDict d => S (map_fold (fun _ x acc => max (depth x) acc) 0%nat d)
  | _ => 0%nat
  end.

(** A raised exception: its class name, whether the class derives from
    [Exception] (what [except Exception] and [errorhandler(Exception)]
    match; [KeyboardInterrupt] and [SystemExit] do not), and [str(e)]. *)
Record pyexn : Type := Exn {
  exn_class : string;
  is_Exception : bool;
  exn_str : pystr
}.

Definition AttributeError (ty attr : pystr) : pyexn :=
  Exn "AttributeError" true
      (lit "'" ++ ty ++ lit "' object has no attribute '" ++ attr ++ lit "'").

Definition KeyError (key : pystr) : pyexn :=
  Exn "KeyError" true (lit "'" ++ key ++ lit "'").

(** The outcome of running Python code: it raises or it returns. *)
Inductive outcome (A : Type) : Type :=
| Raise (e : pyexn)
| Return (v : A).
Arguments Raise {A} e.
Arguments Return {A} v.

(** A dict display [{k1: v1, ..., kn: vn}]: keys are stored left to right,
    a later duplicate overwrites. *)
Definition dict_of (items : list (pystr * pyval)) : gmap pystr pyval :=
  foldl (fun d kv => <[kv.1 := kv.2]> d) ∅ items.

(** ** File streams and requests *)

(** An uploaded file's stream: a byte buffer and a read position. *)
Record file_stream : Type := Stream {
  buffer : list byte;
  position : nat
}.

(** [file_stream.seek(n)] *)
Definition seek (n : nat) (fs : file_stream) : file_stream :=
  Stream (buffer fs) n.

(** [file_stream.read()]: the bytes from the position to the end; the
    position moves to the end. *)
Definition read (fs : file_stream) : list byte * file_stream :=
  (drop (position fs) (buffer fs), Stream (buffer fs) (length (buffer fs))).

(** [needle] occurs in [data]. *)
Fixpoint bytes_prefix (needle data : list byte) : bool :=
  match needle, data with
  | [], _ => true
  | _ :: _, [] => false
  | a :: needle', b :: data' => Byte.eqb a b && bytes_prefix needle' data'
  end.

Fixpoint bytes_contain (needle data : list byte) : bool :=
  bytes_prefix needle data ||
  match data with
  | [] => false
  | _ :: data' => bytes_contain needle data'
  end.

(** A PDF file starts with the header [%PDF-] and ends with the marker
    [%%EOF] after its cross-reference table and trailer (ISO 32000-1,
    7.5.2 and 7.5.5): a file without the marker is not a well-formed
    PDF. *)
Definition has_pdf_header (data : list byte) : bool :=
  bytes_prefix [x25; x50; x44; x46; x2d] data.

Definition has_eof_marker (data : list byte) : bool :=
  bytes_contain [x25; x25; x45; x4f; x46] data.

(** werkzeug's [FileStorage] *)
Record FileStorage : Type := {
  filename : pystr;
  stream : file_stream
}.

(** The parts of Flask's [request] the view reads. *)
Record request : Type := {
  files : gmap pystr FileStorage;
  form : gmap pystr pystr
}.

(** What a view hands back to Flask: the value given to [jsonify] and the
    HTTP status. *)
Record response : Type := {
  body : pyval;
  status : nat
}.

(** [jsonify(v)]: the value is serialised and answered with status 200.
    The encoder descends into lists and dictionaries and raises
    [RecursionError] once the nesting exhausts the interpreter's stack;
    where that happens depends on the deployment, so [encoder_error] says
    what the encoder raises, if anything, on a value nested more than two
    levels deep.  The dictionaries the program builds itself nest at most
    two levels and always serialise. *)
Definition jsonify (encoder_error : pyval -> option pyexn) (v : pyval)
  : outcome response :=
  if (depth v <=? 2)%nat then Return {| body := v; status := 200 |}
  else match encoder_error v with
       | Some e => Raise e
       | None => Return {| body := v; status := 200 |}
       end.

(** [return resp, code] *)
Definition with_status (r : response) (code : nat) : response :=
  {| body := body r; status := code |}.

(** ** The prompt and the message sent to the model *)

Definition nl : pystr := [10].
Definition dq : pystr := [34].

(** ["k"] with its double quotes *)
Definition quoted (s : string) : pystr := dq ++ lit s ++ dq.

(** The triple-quoted literal [prompt] of [call_gemini], lines 108-121. *)
Definition prompt : pystr :=
  nl ++
  lit "You are an expert HR professional and ATS (Applicant Tracking System) specialist." ++ nl ++
  lit "Analyze the provided resume against the job description." ++ nl ++
  nl ++
  lit "Respond ONLY with a valid JSON object, with NO extra text, markdown, or code fences." ++ nl ++
  nl ++
  lit "JSON format:" ++ nl ++
  lit "{" ++ nl ++
  lit "  " ++ quoted "score" ++ lit ": <number between 0-100>," ++ nl ++
  lit "  " ++ quoted "explanation" ++ lit ": " ++ quoted "<summary>" ++ lit "," ++ nl ++
  lit "  " ++ quoted "missing_skills" ++ lit ": [" ++ quoted "skill1" ++ lit ", " ++ quoted "skill2" ++ lit "]," ++ nl ++
  lit "  " ++ quoted "present_skills" ++ lit ": [" ++ quoted "skill1" ++ lit ", " ++ quoted "skill2" ++ lit "]" ++ nl ++
  lit "}" ++ nl.

Definition model_id : pystr := lit "models/gemini-2.5-pro".

(** One entry of [contents]: [{"role": "user", "parts": [{"text": t}]}] *)
Definition user_part (t : pystr) : pyval :=
  PyDict (dict_of [(lit "role", PyStr (lit "user"));
                   (lit "parts", PyList [PyDict (dict_of [(lit "text", PyStr t)])])]).

(** The [contents] argument of [generate_content], lines 125-129. *)
Definition build_contents (resume_txt jd_txt : pystr) : list pyval :=
  [ user_part prompt;
    user_part (lit "Resume:" ++ nl ++ slice_to 4000 resume_txt);
    user_part (lit "Job Description:" ++ nl ++ slice_to 2000 jd_txt) ].

(** What the client library reads from one entry of [contents]: the role,
    and the text of each part. *)
Definition entry_role (entry : pyval) : option pyval :=
  match entry with
  | PyDict d => d !! lit "role"
  | _ => None
  end.

Definition part_text (part : pyval) : option pyval :=
  match part with
  | PyDict d => d !! lit "text"
  | _ => None
  end.

Definition entry_texts (entry : pyval) : option (list (option pyval)) :=
  match entry with
  | PyDict d =>
      match d !! lit "parts" with
      | Some (PyList parts) => Some (map part_text parts)
      | _ => None
      end
  | _ => None
  end.

(** [kept] is [text] cut at [n] characters: the first [n] characters of a
    longer text, the whole of a text that has no more than [n]. *)
Definition cut_at (n : nat) (text kept : pystr) : Prop :=
  exists dropped,
    text = kept ++ dropped /\
    (length kept = n \/ (dropped = [] /\ (length kept <= n)%nat)).

(** ** The result dictionaries *)

Definition k_score : pystr := lit "score".
Definition k_explanation : pystr := lit "explanation".
Definition k_missing : pystr := lit "missing_skills".
Definition k_present : pystr := lit "present_skills".

(** The dictionary of the [except] branch, lines 148-153. *)
Definition degraded (e : pyexn) : pyval :=
  PyDict (dict_of [(k_score, PyInt 0);
                   (k_explanation, PyStr (lit "AI analysis failed: " ++ exn_str e));
                   (k_missing, PyList []);
                   (k_present, PyList [])]).

(** The four keys of an analysis result. *)
Definition four_keys : gset pystr :=
  {[ k_score; k_explanation; k_missing; k_present ]}.

(** The types the prompt asks for: a number, a string, two lists of
    strings.  ([True] and [False] are not JSON numbers.) *)
Definition is_number (v : pyval) : bool :=
  match v with PyInt _ | PyFloat _ => true | _ => false end.

Definition is_str (v : pyval) : bool :=
  match v with PyStr _ => true | _ => false end.

Definition is_str_list (v : pyval) : bool :=
  match v with PyList l => forallb is_str l | _ => false end.

Definition typed_field (d : gmap pystr pyval) (k : pystr)
           (ty : pyval -> bool) : Prop :=
  exists v, d !! k = Some v /\ ty v = true.

(** A parsed object that has all four keys, each of the requested type. *)
Definition has_expected_fields (d : gmap pystr pyval) : Prop :=
  typed_field d k_score is_number /\
  typed_field d k_explanation is_str /\
  typed_field d k_missing is_str_list /\
  typed_field d k_present is_str_list.

(** The part of a dictionary under the four keys. *)
Definition restrict_four (d : gmap pystr pyval) : gmap pystr pyval :=
  filter (fun kv => kv.1 ∈ four_keys) d.

(** How one field of the result [r] follows from the parsed object [d]. *)
Definition field_rule (d r : gmap pystr pyval) (k : pystr) (dflt : pyval)
  : Prop :=
  match d !! k with
  | Some v => r !! k = Some v
  | None => r !! k = Some dflt
  end.

(** [data.get(key, default)]: defined on a [dict] only; any other value
    parsed from JSON has no attribute [get]. *)
Definition py_get (data : pyval) (key : pystr) (dflt : pyval) : outcome pyval :=
  match data with
  | PyDict d => Return (default dflt (d !! key))
  | _ => Raise (AttributeError (type_name data) (lit "get"))
  end.

(** ** The process: external collaborators, effects, the pipeline *)

(** What the process does to the outside, in order: documents handed to
    PyMuPDF, requests sent to the model, strings written to the console. *)
Inductive event : Type :=
| EvOpenPdf (data : list byte)
| EvGenerate (model : pystr) (contents : list pyval)
| EvWrite (text : pystr).

(** [print(label, text)] writes four strings to [sys.stdout]: the label,
    the separator, the text, the line end. *)
Definition print_pieces (label text : pystr) : list pystr :=
  [label; lit " "; text; [10]].

(** What the two prints of [call_gemini], lines 133 and 137, write for a
    reply. *)
Definition reply_pieces (reply : pystr) : list pystr :=
  print_pieces (lit "Gemini raw response:") (strip reply)
  ++ print_pieces (lit "Gemini cleaned response:")
                  (remove_code_fences (strip reply)).

(** The first exception the console raises on a run of writes. *)
Fixpoint refused (console_write : pystr -> outcome unit)
         (pieces : list pystr) : option pyexn :=
  match pieces with
  | [] => None
  | p :: ps =>
      match console_write p with
      | Raise e => Some e
      | Return _ => refused console_write ps
      end
  end.

(** The writes that reach the console: those before the first refusal. *)
Fixpoint accepted (console_write : pystr -> outcome unit)
         (pieces : list pystr) : list event :=
  match pieces with
  | [] => []
  | p :: ps =>
      match console_write p with
      | Raise _ => []
      | Return _ => EvWrite p :: accepted console_write ps
      end
  end.

(** What reaches the console after the model answered: nothing unless the
    response has text. *)
Definition writes_of_answer (console_write : pystr -> outcome unit)
           (answer : outcome (option pystr)) : list event :=
  match answer with
  | Return (Some reply) => accepted console_write (reply_pieces reply)
  | _ => []
  end.

Section Pipeline.

(** The remote model: [client.models.generate_content(model, contents)],
    with the reading of [response.text], raises or gives a [str] or
    [None]; [AI] is whatever the service remembers between calls. *)
Variable AI : Type.
Variable generate_content :
  AI -> pystr -> list pyval -> outcome (option pystr) * AI.

(** PyMuPDF: [fitz.open(stream=data, filetype="pdf")] raises or yields
    the document's pages; [page.get_text()]. *)
Variable page : Type.
Variable fitz_open : list byte -> outcome (list page).
Variable get_text : page -> pystr.

(** [json.loads] on a [str]. *)
Variable json_loads : pystr -> outcome pyval.

(** [sys.stdout.write(s)]: the console takes the string or raises
    ([UnicodeEncodeError] on text its encoding cannot represent,
    [ValueError] when it is closed). *)
Variable console_write : pystr -> outcome unit.

(** The encoder behind [jsonify] on deeply nested values. *)
Variable encoder_error : pyval -> option pyexn.

(** The state a request runs in and leaves behind. *)
Record world : Type := World {
  ai : AI;
  log : list event
}.

(** Python code with effects: from a world to an outcome and a world. *)
Definition M (A : Type) : Type := world -> outcome A * world.

#[local] Instance M_ret : MRet M := fun A v w => (Return v, w).

#[local] Instance M_bind : MBind M := fun A B f m w =>
  match m w with
  | (Return v, w') => f v w'
  | (Raise e, w') => (Raise e, w')
  end.

Definition raise {A} (e : pyexn) : M A := fun w => (Raise e, w).

(** A pure computation that may raise. *)
Definition lift {A} (o : outcome A) : M A := fun w => (o, w).

Definition emit (ev : event) : M unit :=
  fun w => (Return tt, World (ai w) (log w ++ [ev])).

(** [try: body  except Exception as e: handler(e)] *)
Definition try_except {A} (body : M A) (handler : pyexn -> M A) : M A :=
  fun w =>
    match body w with
    | (Raise e, w') =>
        if is_Exception e then handler e w' else (Raise e, w')
    | (Return v, w') => (Return v, w')
    end.

(** [sys.stdout.write(s)] *)
Definition write (s : pystr) : M unit :=
  match console_write s with
  | Raise e => raise e
  | Return _ => emit (EvWrite s)
  end.

(** [print(label, text)]: the label, a space, the text and the line end
    are written one after the other; a write that raises ends the print. *)
Definition print (label text : pystr) : M unit :=
  _ ← write label;
  _ ← write (lit " ");
  _ ← write text;
  write nl.

(** [client.models.generate_content(model=model, contents=contents)] *)
Definition call_model (model : pystr) (contents : list pyval)
  : M (option pystr) :=
  fun w =>
    let '(r, a) := generate_content (ai w) model contents in
    (r, World a (log w ++ [EvGenerate model contents])).

(** [fitz.open(stream=data, filetype="pdf")] *)
Definition open_pdf (data : list byte) : M (list page) :=
  _ ← emit (EvOpenPdf data); lift (fitz_open data).

(** [pdf_to_text], lines 64-70.  The stream is rewound and read to its
    end; its final position is not used afterwards. *)
Definition pdf_to_text (fs : file_stream) : M pystr :=
  let fs := seek 0 fs in
  let '(data, _) := read fs in
  doc ← open_pdf data;
  mret (foldl (fun text p => text ++ get_text p) [] doc).

(** [response.text.strip()], line 132 *)
Definition response_text_strip (text : option pystr) : M pystr :=
  match text with
  | Some t => mret (strip t)
  | None => raise (AttributeError (lit "NoneType") (lit "strip"))
  end.

(** Lines 139-145: parse, then build the four-key dictionary. *)
Definition parse_result (clean_text : pystr) : outcome pyval :=
  match json_loads clean_text with
  | Raise e => Raise e
  | Return data =>
      match py_get data k_score (PyInt 0) with
      | Raise e => Raise e
      | Return score =>
      match py_get data k_explanation (PyStr []) with
      | Raise e => Raise e
      | Return explanation =>
      match py_get data k_missing (PyList []) with
      | Raise e => Raise e
      | Return missing =>
      match py_get data k_present (PyList []) with
      | Raise e => Raise e
      | Return present =>
          Return (PyDict (dict_of [(k_score, score);
                                   (k_explanation, explanation);
                                   (k_missing, missing);
                                   (k_present, present)]))
      end end end end
  end.

(** The body of the [try], lines 123-145. *)
Definition call_gemini_try (resume_txt jd_txt : pystr) : M pyval :=
  response_text ← call_model model_id (build_contents resume_txt jd_txt);
  text ← response_text_strip response_text;
  _ ← print (lit "Gemini raw response:") text;
  let clean_text := remove_code_fences text in
  _ ← print (lit "Gemini cleaned response:") clean_text;
  lift (parse_result clean_text).

(** [call_gemini], lines 107-153. *)
Definition call_gemini (resume_txt jd_txt : pystr) : M pyval :=
  try_except (call_gemini_try resume_txt jd_txt)
             (fun e => mret (degraded e)).

(** [d[key]] on the request's multi-dicts *)
Definition getitem {V} (d : gmap pystr V) (key : pystr) : M V :=
  match d !! key with
  | Some v => mret v
  | None => raise (KeyError key)
  end.

(** [key in d] *)
Definition contains_key {V} (d : gmap pystr V) (key : pystr) : bool :=
  bool_decide (is_Some (d !! key)).

Definition missing_fields_error : pyval :=
  PyDict (dict_of [(lit "error",
                    PyStr (lit "Missing resume file or job description text"))]).

(** The view of [POST /upload], lines 186-196. *)
Definition upload_and_analyze (req : request) : M response :=
  if negb (contains_key (files req) (lit "resume"))
     || negb (contains_key (form req) (lit "jd_text"))
  then
    resp ← lift (jsonify encoder_error missing_fields_error);
    mret (with_status resp 400)
  else
    resume_file ← getitem (files req) (lit "resume");
    jd_text ← getitem (form req) (lit "jd_text");
    resume_txt ← pdf_to_text (stream resume_file);
    result ← call_gemini resume_txt jd_text;
    lift (jsonify encoder_error result).

(** [handle_exception], lines 232-234. *)
Definition handle_exception (e : pyexn) : M response :=
  resp ← lift (jsonify encoder_error
                 (PyDict (dict_of [(lit "error", PyStr (exn_str e))])));
  mret (with_status resp 500).

(** Flask's dispatch of [POST /upload]: the view runs, and an exception
    it lets escape goes to the handler registered for [Exception]. *)
Definition post_upload (req : request) : M response :=
  try_except (upload_and_analyze req) handle_exception.

End Pipeline.

(** A stub model is deterministic when its answer depends on the request
    alone, not on what the service has seen before. *)
Definition deterministic_model {AI}
    (generate_content : AI -> pystr -> list pyval -> outcome (option pystr) * AI)
  : Prop :=
  forall a a' model contents,
    (generate_content a model contents).1 = (generate_content a' model contents).1.

(** Two submissions carry the same pair: the same resume bytes (whatever
    the stream position or file name) and the same job-description text. *)
Definition same_submission (r1 r2 : request) : Prop :=
  (buffer ∘ stream) <$> (files r1 !! lit "resume")
    = (buffer ∘ stream) <$> (files r2 !! lit "resume")
  /\ form r1 !! lit "jd_text" = form r2 !! lit "jd_text".

(** The text [pdf_to_text] builds from the pages of a document. *)
Definition pages_text {page} (get_text : page -> pystr) (doc : list page)
  : pystr :=
  foldl (fun text p => text ++ get_text p) [] doc.

Arguments World {AI} ai log.
Arguments ai {AI} w.
Arguments log {AI} w.
Arguments raise {AI A} e w.
Arguments lift {AI A} o w.
Arguments emit {AI} ev w.
Arguments try_except {AI A} body handler w.
Arguments write {AI} console_write s w.
Arguments print {AI} console_write label text w.
Arguments call_model {AI} generate_content model contents w.
Arguments open_pdf {AI page} fitz_open data w.
Arguments pdf_to_text {AI page} fitz_open get_text fs w.
Arguments response_text_strip {AI} text w.
Arguments call_gemini_try {AI} generate_content json_loads console_write
  resume_txt jd_txt w.
Arguments call_gemini {AI} generate_content json_loads console_write
  resume_txt jd_txt w.
Arguments getitem {AI V} d key w.
Arguments upload_and_analyze {AI} generate_content {page} fitz_open get_text
  json_loads console_write encoder_error req w.
Arguments handle_exception {AI} encoder_error e w.
Arguments post_upload {AI} generate_content {page} fitz_open get_text
  json_loads console_write encoder_error req w.

(** ** Stand-ins for the external collaborators

    Small executable doubles for the libraries, the console and the
    encoder, used to run the pipeline on concrete requests.  They are
    instances of the parameters above; the theorems are stated for every
    instance. *)
Module Double.

Definition JSONDecodeError (msg : string) : pyexn :=
  Exn "JSONDecodeError" true (lit msg).

Definition is_json_ws (c : N) : bool :=
  (c =? 32) || (c =? 9) || (c =? 10) || (c =? 13).

Fixpoint skip_ws (s : pystr) : pystr :=
  match s with
  | c :: t => if is_json_ws c then skip_ws t else s
  | [] => []
  end.

Definition is_digit (c : N) : bool := (48 <=? c) && (c <=? 57).

Fixpoint scan_digits (acc : Z) (s : pystr) : Z * pystr :=
  match s with
  | c :: t =>
      if is_digit c then scan_digits (acc * 10 + Z.of_N (c - 48)) t
      else (acc, s)
  | [] => (acc, [])
  end.

(** The characters of a string up to its closing quote; escapes and
    control characters are outside the fragment. *)
Fixpoint scan_string (s : pystr) : option (pystr * pystr) :=
  match s with
  | [] => None
  | c :: t =>
      if c =? 34 then Some ([], t)
      else if (c =? 92) || (c <? 32) then None
      else match scan_string t with
           | Some (str, r) => Some (c :: str, r)
           | None => None
           end
  end.

(** An integer literal; a fraction or exponent is outside the fragment. *)
Definition scan_int (s : pystr) : option (Z * pystr) :=
  let no_fraction (r : pystr) :=
    match r with
    | c :: _ => negb ((c =? 46) || (c =? 101) || (c =? 69))
    | [] => true
    end in
  match s with
  | c :: t =>
      if c =? 48 then if no_fraction t then Some (0%Z, t) else None
      else if is_digit c then
        let '(z, r) := scan_digits 0%Z s in
        if no_fraction r then Some (z, r) else None
      else None
  | [] => None
  end.

(** A decoder for the JSON fragment of objects, arrays, strings without
    escapes, integers, [true], [false] and [null]. *)
Fixpoint parse_value (fuel : nat) (s : pystr) {struct fuel}
  : option (pyval * pystr) :=
  match fuel with
  | O => None
  | S fuel =>
      match s with
      | [] => None
      | c :: t =>
          if c =? 123 then
            match skip_ws t with
            | c' :: r =>
                if c' =? 125 then Some (PyDict ∅, r)
                else match parse_members fuel ∅ (c' :: r) with
                     | Some (d, r') => Some (PyDict d, r')
                     | None => None
                     end
            | [] => None
            end
          else if c =? 91 then
            match skip_ws t with
            | c' :: r =>
                if c' =? 93 then Some (PyList [], r)
                else match parse_elems fuel (c' :: r) with
                     | Some (vs, r') => Some (PyList vs, r')
                     | None => None
                     end
            | [] => None
            end
          else if c =? 34 then
            match scan_string t with
            | Some (str, r) => Some (PyStr str, r)
            | None => None
            end
          else if c =? 45 then
            match scan_int t with
            | Some (z, r) => Some (PyInt (- z), r)
            | None => None
            end
          else if is_digit c then
            match scan_int s with
            | Some (z, r) => Some (PyInt z, r)
            | None => None
            end
          else if startswith s (lit "null") then Some (PyNone, drop 4 s)
          else if startswith s (lit "true") then Some (PyBool true, drop 4 s)
          else if startswith s (lit "false") then Some (PyBool false, drop 5 s)
          else None
      end
  end
with parse_elems (fuel : nat) (s : pystr) {struct fuel}
  : option (list pyval * pystr) :=
  match fuel with
  | O => None
  | S fuel =>
      match parse_value fuel s with
      | Some (v, r) =>
          match skip_ws r with
          | c :: r' =>
              if c =? 44 then
                match parse_elems fuel (skip_ws r') with
                | Some (vs, r'') => Some (v :: vs, r'')
                | None => None
                end
              else if c =? 93 then Some ([v], r')
              else None
          | [] => None
          end
      | None => None
      end
  end
with parse_members (fuel : nat) (acc : gmap pystr pyval) (s : pystr)
                   {struct fuel}
  : option (gmap pystr pyval * pystr) :=
  match fuel with
  | O => None
  | S fuel =>
      match s with
      | c :: t =>
          if c =? 34 then
            match scan_string t with
            | Some (key, r) =>
                match skip_ws r with
                | c1 :: r1 =>
                    if c1 =? 58 then
                      match parse_value fuel (skip_ws r1) with
                      | Some (v, r2) =>
                          match skip_ws r2 with
                          | c3 :: r3 =>
                              if c3 =? 44 then
                                parse_members fuel (<[key := v]> acc) (skip_ws r3)
                              else if c3 =? 125 then
                                Some (<[key := v]> acc, r3)
                              else None
                          | [] => None
                          end
                      | None => None
                      end
                    else None
                | [] => None
                end
            | None => None
            end
          else None
      | [] => None
      end
  end.

(** The stand-in for [json.loads]. *)
Definition json_loads (s : pystr) : outcome pyval :=
  match parse_value (2 * length s + 2) (skip_ws s) with
  | Some (v, r) =>
      match skip_ws r with
      | [] => Return v
      | _ :: _ => Raise (JSONDecodeError "Extra data")
      end
  | None => Raise (JSONDecodeError "Expecting value")
  end.

(** A model that always gives the same answer and counts its calls. *)
Definition generate_content (answer : outcome (option pystr))
  : nat -> pystr -> list pyval -> outcome (option pystr) * nat :=
  fun calls _ _ => (answer, S calls).

Definition FileDataError : pyexn :=
  Exn "FileDataError" true (lit "Failed to open stream").

(** A document reader: data that begins with [%PDF-] holds the given
    pages, anything else is rejected. *)
Definition fitz_open (pages : list pystr) (data : list byte)
  : outcome (list pystr) :=
  match data with
  | x25 :: x50 :: x44 :: x46 :: x2d :: _ => Return pages
  | _ => Raise FileDataError
  end.

Definition get_text (p : pystr) : pystr := p.

Definition pdf_bytes : list byte := [x25; x50; x44; x46; x2d; x31; x2e; x37].

Definition is_surrogate (c : N) : bool := (55296 <=? c) && (c <=? 57343).

Fixpoint first_surrogate (pos : N) (s : pystr) : option (N * N) :=
  match s with
  | [] => None
  | c :: t => if is_surrogate c then Some (pos, c)
              else first_surrogate (pos + 1) t
  end.

Definition hex_digit (n : N) : N :=
  if n <? 10 then 48 + n else 87 + n.

Definition hex4 (c : N) : pystr :=
  [hex_digit (c / 4096 mod 16); hex_digit (c / 256 mod 16);
   hex_digit (c / 16 mod 16); hex_digit (c mod 16)].

Definition decimal (n : N) : pystr :=
  lit (NilEmpty.string_of_uint (N.to_uint n)).

(** The message for one lone surrogate. *)
Definition UnicodeEncodeError (pos c : N) : pyexn :=
  Exn "UnicodeEncodeError" true
      (lit "'utf-8' codec can't encode character '\ud" ++ drop 1 (hex4 c)
       ++ lit "' in position " ++ decimal pos
       ++ lit ": surrogates not allowed").

(** A console that encodes as UTF-8, strictly: it takes every string
    without a surrogate code point. *)
Definition console_write (s : pystr) : outcome unit :=
  match first_surrogate 0 s with
  | Some (pos, c) => Raise (UnicodeEncodeError pos c)
  | None => Return tt
  end.

Definition RecursionError : pyexn :=
  Exn "RecursionError" true
      (lit "maximum recursion depth exceeded while encoding a JSON object").

(** An encoder with a stack for eight levels of nesting. *)
Definition encoder_error (v : pyval) : option pyexn :=
  if (depth v <=? 8)%nat then None else Some RecursionError.

Definition call_gemini (answer : outcome (option pystr))
  : pystr -> pystr -> M nat pyval :=
  call_gemini (generate_content answer) json_loads console_write.

Definition post_upload (answer : outcome (option pystr)) (pages : list pystr)
  : request -> M nat response :=
  post_upload (generate_content answer) (fitz_open pages) get_text json_loads
              console_write encoder_error.

End Double.

(** ** Sample requests and replies *)
Module Sample.

(** A stream that was already read to its end once. *)
Definition resume_file : FileStorage :=
  {| filename := lit "cv.pdf"; stream := Stream Double.pdf_bytes 8 |}.

Definition jd : pystr := lit "Seeking Go backend engineer".

Definition req : request :=
  {| files := {[ lit "resume" := resume_file ]};
     form := {[ lit "jd_text" := jd ]} |}.

Definition req_no_jd : request :=
  {| files := {[ lit "resume" := resume_file ]}; form := ∅ |}.

Definition req_not_pdf : request :=
  {| files := {[ lit "resume" :=
                 {| filename := lit "cv.txt"; stream := Stream [x68; x69] 0 |} ]};
     form := {[ lit "jd_text" := jd ]} |}.

(** The same pair submitted again: another file name, a fresh stream. *)
Definition req_again : request :=
  {| files := {[ lit "resume" :=
                 {| filename := lit "cv (1).pdf";
                    stream := Stream Double.pdf_bytes 0 |} ]};
     form := {[ lit "jd_text" := jd ]} |}.

Definition pages : list pystr := [lit "Python, Go, "; lit "5 years backend"].

Definition resume_txt : pystr := lit "Python, Go, 5 years backend".

Definition w0 : world nat := World 0%nat [].

(** A world after other requests were served. *)
Definition w_later : world nat :=
  World 5%nat [EvWrite (lit "Gemini raw response:")].

Definition network_error : pyexn :=
  Exn "ConnectionError" true (lit "connection refused").

(** [{"score":82,"explanation":"Strong match","missing_skills":[],
     "present_skills":["Go","backend"]}] *)
Definition reply_full : pystr :=
  lit "{" ++ quoted "score" ++ lit ":82," ++
  quoted "explanation" ++ lit ":" ++ quoted "Strong match" ++ lit "," ++
  quoted "missing_skills" ++ lit ":[]," ++
  quoted "present_skills" ++ lit ":[" ++ quoted "Go" ++ lit "," ++
  quoted "backend" ++ lit "]}".

Definition parsed_full : gmap pystr pyval :=
  dict_of [(k_score, PyInt 82);
           (k_explanation, PyStr (lit "Strong match"));
           (k_missing, PyList []);
           (k_present, PyList [PyStr (lit "Go"); PyStr (lit "backend")])].

(** The same object with one more key, [confidence]. *)
Definition reply_extra : pystr :=
  lit "{" ++ quoted "score" ++ lit ":82," ++
  quoted "explanation" ++ lit ":" ++ quoted "Strong match" ++ lit "," ++
  quoted "missing_skills" ++ lit ":[]," ++
  quoted "present_skills" ++ lit ":[" ++ quoted "Go" ++ lit "," ++
  quoted "backend" ++ lit "]," ++
  quoted "confidence" ++ lit ":1}".

Definition parsed_extra : gmap pystr pyval :=
  <[lit "confidence" := PyInt 1]> parsed_full.

(** [{"score": 7}] *)
Definition reply_partial : pystr :=
  lit "{" ++ quoted "score" ++ lit ": 7}".

End Sample.

(** ** More sample requests *)
Module Sample2.

(** Two job descriptions that differ only after their 2000th character. *)
Definition jd_long_a : pystr := replicate 2000 97%N ++ lit " remote".
Definition jd_long_b : pystr := replicate 2000 97%N ++ lit " on site".

Definition req_long_a : request :=
  {| files := {[ lit "resume" := Sample.resume_file ]};
     form := {[ lit "jd_text" := jd_long_a ]} |}.

(** Other bytes, which the stand-in reader opens to the same pages. *)
Definition req_long_b : request :=
  {| files := {[ lit "resume" :=
                 {| filename := lit "cv2.pdf";
                    stream := Stream (Double.pdf_bytes ++ [x0a]) 0 |} ]};
     form := {[ lit "jd_text" := jd_long_b ]} |}.

Definition keyboard_interrupt : pyexn := Exn "KeyboardInterrupt" false [].

(** A resume text of 4005 characters. *)
Definition resume_long : pystr := replicate 4000 97%N ++ lit " tail".

(** A PDF cut short: the header and three objects, but no cross-reference
    table, no trailer and no end-of-file marker. *)
Definition truncated_pdf : list byte :=
  list_byte_of_string "%PDF-1.4" ++ [x0a] ++
  list_byte_of_string "1 0 obj<</Type/Catalog/Pages 2 0 R>>endobj" ++ [x0a] ++
  list_byte_of_string "2 0 obj<</Type/Pages/Kids[3 0 R]/Count 1>>endobj"
    ++ [x0a] ++
  list_byte_of_string
    "3 0 obj<</Type/Page/Parent 2 0 R/MediaBox[0 0 9 9]>>endobj" ++ [x0a].

Definition req_truncated : request :=
  {| files := {[ lit "resume" :=
                 {| filename := lit "cut.pdf";
                    stream := Stream truncated_pdf 0 |} ]};
     form := {[ lit "jd_text" := Sample.jd ]} |}.

(** Replies whose explanation is the lone surrogate U+D800, which UTF-8
    cannot encode: an object with two of the four keys, and one with all
    four. *)
Definition reply_surrogate : pystr :=
  lit "{" ++ quoted "score" ++ lit ": 1, " ++
  quoted "explanation" ++ lit ": " ++ dq ++ [55296%N] ++ dq ++ lit "}".

Definition parsed_surrogate : gmap pystr pyval :=
  dict_of [(k_score, PyInt 1); (k_explanation, PyStr [55296%N])].

Definition reply_surrogate_full : pystr :=
  lit "{" ++ quoted "score" ++ lit ": 1, " ++
  quoted "explanation" ++ lit ": " ++ dq ++ [55296%N] ++ dq ++ lit ", " ++
  quoted "missing_skills" ++ lit ": [], " ++
  quoted "present_skills" ++ lit ": []}".

Definition parsed_surrogate_full : gmap pystr pyval :=
  dict_of [(k_score, PyInt 1); (k_explanation, PyStr [55296%N]);
           (k_missing, PyList []); (k_present, PyList [])].

(** An object whose score is nested nine lists deep, and the answer the
    request gets when the encoder gives up on it. *)
Definition reply_deep : pystr :=
  lit "{" ++ quoted "score" ++ lit ": [[[[[[[[[1]]]]]]]]]}".

Definition deep_reply_response : response :=
  {| body := PyDict (dict_of [(lit "error",
                               PyStr (exn_str Double.RecursionError))]);
     status := 500 |}.

End Sample2.

Local Open Scope nat_scope.

(** * Facts about strings and fences *)

Section StringFacts.

Implicit Types s t p ws body : pystr.

Lemma lstrip_spaces_app ws s :
  forallb is_space ws = true -> lstrip (ws ++ s) = lstrip s.
Proof.
  induction ws as [|c ws IH]; simpl; [done|].
  intros [Hc Hws]%andb_prop. rewrite Hc. auto.
Qed.

Lemma lstrip_nonspace c t : is_space c = false -> lstrip (c :: t) = c :: t.
Proof. intros H. simpl. by rewrite H. Qed.

Lemma lstrip_app_nonspace s c t :
  is_space c = false -> lstrip (s ++ c :: t) = lstrip s ++ c :: t.
Proof.
  intros Hc. induction s as [|a s IH]; simpl.
  - by rewrite Hc.
  - destruct (is_space a); [exact IH | done].
Qed.

Lemma lstrip_idem s : lstrip (lstrip s) = lstrip s.
Proof.
  induction s as [|a s IH]; simpl; [done|].
  destruct (is_space a) eqn:Ha; [exact IH|]. simpl. by rewrite Ha.
Qed.

Lemma rstrip_snoc_nonspace s c : is_space c = false -> rstrip (s ++ [c]) = s ++ [c].
Proof.
  intros Hc. unfold rstrip. rewrite rev_app_distr. simpl.
  rewrite Hc. simpl. by rewrite rev_involutive.
Qed.

Lemma forallb_rev (f : N -> bool) ws : forallb f (rev ws) = forallb f ws.
Proof.
  induction ws as [|c ws IH]; simpl; [done|].
  rewrite forallb_app, IH. simpl. rewrite andb_true_r. apply andb_comm.
Qed.

Lemma rstrip_app_spaces s ws :
  forallb is_space ws = true -> rstrip (s ++ ws) = rstrip s.
Proof.
  intros H. unfold rstrip. rewrite rev_app_distr.
  rewrite lstrip_spaces_app; [done|]. by rewrite forallb_rev.
Qed.

Lemma startswith_app p t : startswith (p ++ t) p = true.
Proof. induction p as [|a p IH]; simpl; [done|]. rewrite N.eqb_refl. exact IH. Qed.

Lemma startswith_spec t p :
  startswith t p = true <-> exists r, t = p ++ r.
Proof.
  revert t. induction p as [|a p IH]; intros t; simpl.
  - split; eauto.
  - destruct t as [|b t].
    + split; [done|]. by intros [r Hr].
    + split.
      * intros [Hab Ht]%andb_prop. apply N.eqb_eq in Hab as ->.
        apply IH in Ht as [r ->]. eauto.
      * intros [r Hr]. injection Hr as -> ->.
        rewrite N.eqb_refl. simpl. apply IH. eauto.
Qed.

Lemma startswith_prefix_false t p q :
  startswith t p = false -> startswith t (p ++ q) = false.
Proof.
  intros H. destruct (startswith t (p ++ q)) eqn:E; [|done].
  apply startswith_spec in E as [r ->].
  rewrite <- app_assoc in H. by rewrite startswith_app in H.
Qed.

Lemma endswith_app t p : endswith (t ++ p) p = true.
Proof. unfold endswith. rewrite rev_app_distr. apply startswith_app. Qed.

Lemma slice_to_neg_app t p : slice_to_neg (length p) (t ++ p) = t.
Proof.
  unfold slice_to_neg. rewrite length_app.
  replace (length t + length p - length p) with (length t) by lia.
  by rewrite take_app_length.
Qed.

Lemma slice_from_app p t : slice_from (length p) (p ++ t) = t.
Proof. unfold slice_from. by rewrite drop_app_length. Qed.

Lemma lstrip_all_spaces ws : forallb is_space ws = true -> lstrip ws = [].
Proof.
  intros H. rewrite <- (app_nil_r ws). by rewrite lstrip_spaces_app.
Qed.

Lemma lstrip_head_kept s : head_kept s = true -> lstrip s = s.
Proof.
  destruct s as [|c t]; simpl; [done|]. by intros ->%negb_true_iff.
Qed.

Lemma rstrip_last_kept s : last_kept s = true -> rstrip s = s.
Proof.
  intros H. unfold rstrip. rewrite lstrip_head_kept by exact H.
  apply rev_involutive.
Qed.

Lemma strip_kept s : head_kept s = true -> last_kept s = true -> strip s = s.
Proof.
  intros Hh Hl. unfold strip. rewrite lstrip_head_kept by exact Hh.
  by apply rstrip_last_kept.
Qed.

(** [strip] removes a whitespace margin around a core it would keep. *)
Lemma strip_margins lead core trail :
  forallb is_space lead = true -> forallb is_space trail = true ->
  head_kept core = true -> last_kept core = true ->
  strip (lead ++ core ++ trail) = core.
Proof.
  intros Hlead Htrail Hh Hl. unfold strip.
  rewrite lstrip_spaces_app by exact Hlead.
  destruct core as [|c t].
  - simpl. by rewrite lstrip_all_spaces.
  - simpl in Hh. apply negb_true_iff in Hh.
    change ((c :: t) ++ trail) with (c :: (t ++ trail)).
    rewrite lstrip_nonspace by exact Hh.
    change (c :: (t ++ trail)) with ((c :: t) ++ trail).
    rewrite rstrip_app_spaces by exact Htrail.
    by apply rstrip_last_kept.
Qed.

Lemma fence_unfold : fence = [96; 96; 96]%N.
Proof. reflexivity. Qed.

Lemma fence_json_unfold : fence_json = fence ++ lit "json".
Proof. reflexivity. Qed.

Lemma last_kept_app_fence s : last_kept (s ++ fence) = true.
Proof. unfold last_kept. rewrite rev_app_distr. reflexivity. Qed.

Lemma head_kept_fence_app s : head_kept (fence ++ s) = true.
Proof. reflexivity. Qed.

Lemma head_kept_lstrip s : head_kept (lstrip s) = true.
Proof.
  induction s as [|c t IH]; simpl; [done|].
  destruct (is_space c) eqn:Hc; [exact IH|]. simpl. by rewrite Hc.
Qed.

(** Trimming a text that ends with a fence only trims its front. *)
Lemma strip_app_fence s : strip (s ++ fence) = lstrip s ++ fence.
Proof.
  unfold strip. rewrite fence_unfold.
  rewrite lstrip_app_nonspace by reflexivity.
  apply rstrip_last_kept. apply (last_kept_app_fence (lstrip s)).
Qed.

Lemma strip_lstrip s : strip (lstrip s) = strip s.
Proof. unfold strip. by rewrite lstrip_idem. Qed.

Lemma strip_idem s : strip (strip s) = strip s.
Proof.
  unfold strip at 1. fold (strip s).
  assert (Hh : head_kept (strip s) = true).
  { unfold strip, rstrip.
    pose proof (head_kept_lstrip s) as H.
    destruct (lstrip s) as [|c t] eqn:E; [done|].
    simpl in H. apply negb_true_iff in H.
    (* the first character survives trimming at the end *)
    assert (Hk : forall u, exists v, rev (lstrip (rev u ++ [c])) = c :: v).
    { intros u. induction u as [|a u IHu] using rev_ind.
      - simpl. rewrite H. simpl. eauto.
      - rewrite rev_app_distr. simpl.
        destruct (is_space a).
        + exact IHu.
        + simpl. rewrite rev_app_distr. simpl. eauto. }
    destruct (Hk t) as [v Hv]. simpl. rewrite Hv. simpl. by rewrite H. }
  rewrite lstrip_head_kept by exact Hh.
  unfold strip, rstrip. rewrite rev_involutive. by rewrite lstrip_idem.
Qed.

Lemma startswith_app_both p t q :
  startswith (p ++ t) (p ++ q) = startswith t q.
Proof.
  induction p as [|a p IH]; simpl; [done|]. rewrite N.eqb_refl. exact IH.
Qed.

(** A text that does not begin with [json] does not begin with it once a
    fence follows. *)
Lemma startswith_json_app_fence body :
  startswith (body ++ fence) (lit "json") = startswith body (lit "json").
Proof.
  rewrite fence_unfold. change (lit "json") with [106; 115; 111; 110]%N.
  destruct body as [|c1 [|c2 [|c3 [|c4 r]]]]; simpl;
    rewrite ?andb_false_r; reflexivity.
Qed.

End StringFacts.

Section FenceFacts.

Implicit Types s t body lead trail : pystr.

Lemma remove_code_fences_strip s :
  remove_code_fences (strip s) = remove_code_fences s.
Proof. unfold remove_code_fences. by rewrite strip_idem. Qed.

Lemma not_fence_not_fence_json t :
  startswith t fence = false -> startswith t fence_json = false.
Proof. rewrite fence_json_unfold. apply startswith_prefix_false. Qed.

(** Neither check fires on a text without fences. *)
Lemma remove_code_fences_plain s :
  startswith (strip s) fence = false ->
  endswith (strip s) fence = false ->
  remove_code_fences s = strip s.
Proof.
  intros Hopen Hclose. unfold remove_code_fences.
  rewrite (not_fence_not_fence_json _ Hopen), Hopen, Hclose. reflexivity.
Qed.

(** C9. On a string whose trimmed form neither begins nor ends with a
    fence, [remove_code_fences] returns the trimmed string. *)
Theorem remove_code_fences_unfenced s :
  startswith (strip s) fence = false ->
  endswith (strip s) fence = false ->
  remove_code_fences s = strip s.
Proof. exact (remove_code_fences_plain s). Qed.

(** After the opener is gone: the rest, trimmed, ends with the closing
    fence, which the second check removes. *)
Lemma closing_fence_removed body :
  let text := strip (body ++ fence) in
  (if endswith text fence then strip (slice_to_neg 3 text) else text)
  = strip body.
Proof.
  cbv zeta. rewrite strip_app_fence, endswith_app.
  change 3 with (length fence). rewrite slice_to_neg_app.
  apply strip_lstrip.
Qed.

Lemma strip_fenced lead opener body trail :
  forallb is_space lead = true -> forallb is_space trail = true ->
  head_kept opener = true -> opener <> [] ->
  strip (lead ++ opener ++ body ++ fence ++ trail) = opener ++ body ++ fence.
Proof.
  intros Hlead Htrail Hh Hne.
  replace (lead ++ opener ++ body ++ fence ++ trail)
    with (lead ++ (opener ++ body ++ fence) ++ trail)
    by (by rewrite <- !app_assoc).
  apply strip_margins; [done | done | |].
  - destruct opener; [done | exact Hh].
  - rewrite app_assoc. apply last_kept_app_fence.
Qed.

(** The first check on a text that begins with the JSON opener. *)
Lemma json_opener_removed rest :
  let text := fence_json ++ rest in
  (if startswith text fence_json then strip (slice_from 7 text)
   else if startswith text fence then strip (slice_from 3 text)
   else text)
  = strip rest.
Proof.
  cbv zeta. rewrite startswith_app.
  change 7 with (length fence_json). by rewrite slice_from_app.
Qed.

(** The first check on a text that begins with a fence not followed by
    [json]. *)
Lemma bare_opener_removed rest :
  startswith rest (lit "json") = false ->
  let text := fence ++ rest in
  (if startswith text fence_json then strip (slice_from 7 text)
   else if startswith text fence then strip (slice_from 3 text)
   else text)
  = strip rest.
Proof.
  intros Hbare. cbv zeta.
  rewrite fence_json_unfold, startswith_app_both, Hbare, startswith_app.
  change 3 with (length fence). by rewrite slice_from_app.
Qed.

Lemma remove_code_fences_json_fence lead body trail :
  forallb is_space lead = true -> forallb is_space trail = true ->
  remove_code_fences (lead ++ fence_json ++ body ++ fence ++ trail)
  = strip body.
Proof.
  intros Hlead Htrail. unfold remove_code_fences.
  rewrite strip_fenced by done.
  rewrite (json_opener_removed (body ++ fence)).
  apply closing_fence_removed.
Qed.

Lemma remove_code_fences_bare_fence lead body trail :
  forallb is_space lead = true -> forallb is_space trail = true ->
  startswith body (lit "json") = false ->
  remove_code_fences (lead ++ fence ++ body ++ fence ++ trail)
  = strip body.
Proof.
  intros Hlead Htrail Hbare. unfold remove_code_fences.
  rewrite strip_fenced by done.
  rewrite (bare_opener_removed (body ++ fence))
    by (by rewrite startswith_json_app_fence).
  apply closing_fence_removed.
Qed.

(** Every text that begins with a fence and ends with another one is an
    opening fence, a body and a closing fence, in the sense of
    [opening_fence]. *)
Lemma fenced_text_decomposes (t : pystr) :
  startswith t fence = true ->
  endswith t fence = true ->
  6 <= length t ->
  exists opener body, t = opener ++ body ++ fence /\ opening_fence opener body.
Proof.
  intros [r ->]%startswith_spec Hend Hlen.
  unfold endswith in Hend. apply startswith_spec in Hend as [r' Hr'].
  apply (f_equal (@rev N)) in Hr'.
  rewrite rev_involutive, rev_app_distr, rev_involutive in Hr'.
  assert (Hu : 3 <= length (rev r')).
  { apply (f_equal (@length N)) in Hr'. rewrite !length_app in Hr'.
    rewrite length_app in Hlen. change (length fence) with 3 in *. lia. }
  apply (f_equal (drop 3)) in Hr'.
  change 3 with (length fence) in Hr' at 1. rewrite drop_app_length in Hr'.
  rewrite drop_app_le in Hr' by exact Hu.
  set (body0 := drop 3 (rev r')) in Hr'. subst r.
  destruct (startswith body0 (lit "json")) eqn:Hj.
  - apply startswith_spec in Hj as [b1 Hb1]. rewrite Hb1.
    exists fence_json, b1. split; [|by left].
    rewrite fence_json_unfold. by rewrite <- !app_assoc.
  - exists fence, body0. split; [done|]. by right.
Qed.

End FenceFacts.

(** * Facts about dictionaries *)

Section DictFacts.

Implicit Types d : gmap pystr pyval.
Implicit Types v : pyval.

Lemma keys_distinct :
  k_score <> k_explanation /\ k_score <> k_missing /\ k_score <> k_present /\
  k_explanation <> k_missing /\ k_explanation <> k_present /\
  k_missing <> k_present.
Proof. repeat split; intros H; vm_compute in H; discriminate H. Qed.

(** The display with the four keys, as a chain of insertions. *)
Lemma four_field_dict_unfold v1 v2 v3 v4 :
  dict_of [(k_score, v1); (k_explanation, v2); (k_missing, v3); (k_present, v4)]
  = <[k_present := v4]> (<[k_missing := v3]>
      (<[k_explanation := v2]> (<[k_score := v1]> ∅))).
Proof. reflexivity. Qed.

Lemma four_field_dict_lookup v1 v2 v3 v4 :
  let d := dict_of [(k_score, v1); (k_explanation, v2);
                    (k_missing, v3); (k_present, v4)] in
  d !! k_score = Some v1 /\ d !! k_explanation = Some v2 /\
  d !! k_missing = Some v3 /\ d !! k_present = Some v4.
Proof.
  destruct keys_distinct as (H1 & H2 & H3 & H4 & H5 & H6).
  cbv zeta. rewrite four_field_dict_unfold.
  repeat split; by simplify_map_eq.
Qed.

Lemma four_field_dict_dom v1 v2 v3 v4 :
  dom (dict_of [(k_score, v1); (k_explanation, v2);
                (k_missing, v3); (k_present, v4)]) = four_keys.
Proof.
  rewrite four_field_dict_unfold, !dom_insert_L, dom_empty_L.
  unfold four_keys. set_solver.
Qed.

Lemma four_field_dict_other v1 v2 v3 v4 k :
  k ∉ four_keys ->
  dict_of [(k_score, v1); (k_explanation, v2);
           (k_missing, v3); (k_present, v4)] !! k = None.
Proof.
  intros Hk. apply not_elem_of_dom. by rewrite four_field_dict_dom.
Qed.

Lemma elem_of_four_keys k :
  k ∈ four_keys <->
  k = k_score \/ k = k_explanation \/ k = k_missing \/ k = k_present.
Proof.
  unfold four_keys. rewrite !elem_of_union, !elem_of_singleton. tauto.
Qed.

(** A dictionary whose four fields are those of [d] is [d] restricted to
    the four keys. *)
Lemma four_field_dict_restrict d v1 v2 v3 v4 :
  d !! k_score = Some v1 -> d !! k_explanation = Some v2 ->
  d !! k_missing = Some v3 -> d !! k_present = Some v4 ->
  dict_of [(k_score, v1); (k_explanation, v2); (k_missing, v3); (k_present, v4)]
  = restrict_four d.
Proof.
  intros H1 H2 H3 H4. apply map_eq. intros k.
  destruct (four_field_dict_lookup v1 v2 v3 v4) as (L1 & L2 & L3 & L4).
  unfold restrict_four.
  destruct (decide (k ∈ four_keys)) as [Hin | Hout].
  - apply elem_of_four_keys in Hin as Hk.
    destruct Hk as [-> | [-> | [-> | ->]]];
      [rewrite L1 | rewrite L2 | rewrite L3 | rewrite L4];
      symmetry; by apply map_lookup_filter_Some_2.
  - rewrite four_field_dict_other by done. symmetry.
    apply map_lookup_filter_None_2. right. intros x _. exact Hout.
Qed.

Lemma restrict_four_id d : dom d = four_keys -> restrict_four d = d.
Proof.
  intros Hdom. apply map_eq. intros k. unfold restrict_four.
  rewrite map_lookup_filter.
  destruct (d !! k) as [v|] eqn:Hk; simpl; [|done].
  rewrite option_guard_True; [done|].
  simpl. rewrite <- Hdom. apply elem_of_dom. eauto.
Qed.

End DictFacts.

(** Unfolds the effect layer down to functions on worlds. *)
Ltac run_effects :=
  unfold mbind, M_bind, mret, M_ret, lift, raise, emit; simpl.


Section PipelineFacts.

Context {AI page : Type}.
Variable generate_content :
  AI -> pystr -> list pyval -> outcome (option pystr) * AI.
Variable fitz_open : list byte -> outcome (list page).
Variable get_text : page -> pystr.
Variable json_loads : pystr -> outcome pyval.
Variable console_write : pystr -> outcome unit.
Variable encoder_error : pyval -> option pyexn.

Implicit Types w : world AI.
Implicit Types req : request.
Implicit Types e : pyexn.
Implicit Types d : gmap pystr pyval.

(** *** Extraction *)

Lemma pdf_to_text_run (fs : file_stream) w :
  pdf_to_text fitz_open get_text fs w
  = (match fitz_open (buffer fs) with
     | Raise e => Raise e
     | Return doc => Return (pages_text get_text doc)
     end,
     World (ai w) (log w ++ [EvOpenPdf (buffer fs)])).
Proof.
  unfold pdf_to_text, open_pdf. run_effects. rewrite drop_0.
  destruct (fitz_open (buffer fs)); reflexivity.
Qed.

(** *** The console and the encoder *)

Lemma refused_app (p1 p2 : list pystr) :
  refused console_write (p1 ++ p2)
  = match refused console_write p1 with
    | Some e => Some e
    | None => refused console_write p2
    end.
Proof.
  induction p1 as [|p p1 IH]; simpl; [done|].
  by destruct (console_write p).
Qed.

Lemma accepted_app (p1 p2 : list pystr) :
  accepted console_write (p1 ++ p2)
  = accepted console_write p1
    ++ match refused console_write p1 with
       | Some _ => []
       | None => accepted console_write p2
       end.
Proof.
  induction p1 as [|p p1 IH]; simpl; [done|].
  destruct (console_write p); [done|]. by rewrite IH.
Qed.

Lemma write_run (s : pystr) w :
  write console_write s w
  = match console_write s with
    | Raise e => (Raise e, w)
    | Return _ => (Return tt, World (ai w) (log w ++ [EvWrite s]))
    end.
Proof. unfold write. by destruct (console_write s). Qed.

(** A print writes its pieces in order and stops at the first one the
    console refuses. *)
Lemma print_run (label text : pystr) w :
  print console_write label text w
  = (match refused console_write (print_pieces label text) with
     | Some e => Raise e
     | None => Return tt
     end,
     World (ai w)
           (log w ++ accepted console_write (print_pieces label text))).
Proof.
  unfold print, print_pieces, nl. unfold mbind, M_bind. rewrite !write_run.
  simpl. destruct w as [a l].
  destruct (console_write label); simpl; [by rewrite app_nil_r|].
  rewrite write_run.
  destruct (console_write (lit " ")); simpl; [done|].
  rewrite write_run.
  destruct (console_write text); simpl; [by rewrite <- app_assoc|].
  rewrite write_run.
  destruct (console_write [10%N]); simpl; by rewrite <- !app_assoc.
Qed.

Lemma jsonify_shallow (v : pyval) :
  depth v <= 2 ->
  jsonify encoder_error v = Return {| body := v; status := 200 |}.
Proof.
  intros H. unfold jsonify. by rewrite (proj2 (Nat.leb_le _ _) H).
Qed.

Lemma jsonify_degraded e :
  jsonify encoder_error (degraded e)
  = Return {| body := degraded e; status := 200 |}.
Proof. reflexivity. Qed.

Lemma jsonify_error_envelope e :
  jsonify encoder_error (PyDict (dict_of [(lit "error", PyStr (exn_str e))]))
  = Return {| body := PyDict (dict_of [(lit "error", PyStr (exn_str e))]);
              status := 200 |}.
Proof. reflexivity. Qed.

(** [jsonify] answers the value it was given, or raises what the encoder
    raises on a deeply nested value. *)
Lemma jsonify_cases (v : pyval) :
  jsonify encoder_error v = Return {| body := v; status := 200 |}
  \/ exists e, jsonify encoder_error v = Raise e /\
               2 < depth v /\ encoder_error v = Some e.
Proof.
  unfold jsonify. destruct (depth v <=? 2) eqn:Hd; [by left|].
  apply Nat.leb_gt in Hd.
  destruct (encoder_error v) as [e|]; [right; eauto | by left].
Qed.

(** *** The body of the [try] *)

Lemma call_gemini_try_run resume_txt jd_txt w :
  call_gemini_try generate_content json_loads console_write resume_txt jd_txt w
  = let r := generate_content (ai w) model_id
               (build_contents resume_txt jd_txt) in
    (match r.1 with
     | Raise e => Raise e
     | Return None => Raise (AttributeError (lit "NoneType") (lit "strip"))
     | Return (Some reply) =>
         match refused console_write (reply_pieces reply) with
         | Some e => Raise e
         | None => parse_result json_loads (remove_code_fences (strip reply))
         end
     end,
     World r.2
       (log w ++ EvGenerate model_id (build_contents resume_txt jd_txt)
             :: writes_of_answer console_write r.1)).
Proof.
  cbv zeta. unfold call_gemini_try, call_model, response_text_strip.
  unfold mbind, M_bind at 1.
  destruct (generate_content _ _ _) as [[e | [reply |]] a];
    cbn [fst snd writes_of_answer]; [done | | done].
  unfold reply_pieces. rewrite refused_app, accepted_app.
  unfold mbind, M_bind, mret, M_ret, lift.
  rewrite print_run. cbn [ai log].
  destruct (refused console_write
              (print_pieces (lit "Gemini raw response:") (strip reply)))
    as [e|].
  { by rewrite app_nil_r, <- app_assoc. }
  rewrite print_run. cbn [ai log]. rewrite <- !app_assoc.
  by destruct (refused console_write
                 (print_pieces (lit "Gemini cleaned response:")
                    (remove_code_fences (strip reply)))).
Qed.

Lemma call_gemini_try_outcome resume_txt jd_txt w :
  (call_gemini_try generate_content json_loads console_write resume_txt jd_txt w).1
  = match (generate_content (ai w) model_id
             (build_contents resume_txt jd_txt)).1 with
    | Raise e => Raise e
    | Return None => Raise (AttributeError (lit "NoneType") (lit "strip"))
    | Return (Some reply) =>
        match refused console_write (reply_pieces reply) with
        | Some e => Raise e
        | None => parse_result json_loads (remove_code_fences (strip reply))
        end
    end.
Proof. by rewrite call_gemini_try_run. Qed.

(** The model is called once, first, with the built message. *)
Lemma call_gemini_try_log resume_txt jd_txt w :
  exists rest,
    log (call_gemini_try generate_content json_loads console_write resume_txt jd_txt w).2
    = log w ++ EvGenerate model_id (build_contents resume_txt jd_txt) :: rest.
Proof. rewrite call_gemini_try_run. cbv zeta. simpl. eauto. Qed.

Lemma call_gemini_run resume_txt jd_txt w :
  call_gemini generate_content json_loads console_write resume_txt jd_txt w
  = let r := call_gemini_try generate_content json_loads console_write resume_txt jd_txt w in
    (match r.1 with
     | Raise e => if is_Exception e then Return (degraded e) else Raise e
     | Return v => Return v
     end, r.2).
Proof.
  unfold call_gemini, try_except. cbv zeta.
  destruct (call_gemini_try _ _ _ _ _) as [[e | v] w']; simpl; [|done].
  by destruct (is_Exception e).
Qed.

(** *** Parsing and the four fields *)

Lemma parse_result_raise text e :
  json_loads text = Raise e -> parse_result json_loads text = Raise e.
Proof. unfold parse_result. by intros ->. Qed.

Lemma parse_result_dict text d :
  json_loads text = Return (PyDict d) ->
  parse_result json_loads text
  = Return (PyDict (dict_of
      [(k_score, default (PyInt 0) (d !! k_score));
       (k_explanation, default (PyStr []) (d !! k_explanation));
       (k_missing, default (PyList []) (d !! k_missing));
       (k_present, default (PyList []) (d !! k_present))])).
Proof. unfold parse_result. by intros ->. Qed.

Lemma parse_result_not_dict text data :
  json_loads text = Return data ->
  (forall d, data <> PyDict d) ->
  parse_result json_loads text
  = Raise (AttributeError (type_name data) (lit "get")).
Proof.
  unfold parse_result. intros -> Hnd.
  destruct data; try reflexivity. by destruct (Hnd d).
Qed.

(** The ways the body of the [try] raises: the call itself, a response
    without text, a print the console refuses, a reply that is not JSON,
    a JSON value that is not an object. *)
Lemma call_gemini_try_raises resume_txt jd_txt w e :
  (call_gemini_try generate_content json_loads console_write resume_txt jd_txt w).1
    = Raise e <->
  let answer := (generate_content (ai w) model_id
                   (build_contents resume_txt jd_txt)).1 in
  answer = Raise e
  \/ (answer = Return None
      /\ e = AttributeError (lit "NoneType") (lit "strip"))
  \/ (exists reply, answer = Return (Some reply)
      /\ refused console_write (reply_pieces reply) = Some e)
  \/ (exists reply, answer = Return (Some reply)
      /\ refused console_write (reply_pieces reply) = None
      /\ json_loads (remove_code_fences (strip reply)) = Raise e)
  \/ (exists reply data, answer = Return (Some reply)
      /\ refused console_write (reply_pieces reply) = None
      /\ json_loads (remove_code_fences (strip reply)) = Return data
      /\ (forall d, data <> PyDict d)
      /\ e = AttributeError (type_name data) (lit "get")).
Proof.
  rewrite call_gemini_try_outcome. cbv zeta.
  destruct (generate_content _ _ _).1 as [e0 | [reply |]].
  - split; [intros [= ->]; by left|].
    intros [H | [[H _] | [(r & H & _) | [(r & H & _) | (r & dt & H & _)]]]];
      congruence.
  - destruct (refused console_write (reply_pieces reply)) as [e2|] eqn:Hp.
    { split.
      - intros [= ->]. right. right. left. by exists reply.
      - intros [H | [[H _] | [(r & H & He) | [(r & H & He & _)
                                             | (r & dt & H & He & _)]]]];
          congruence. }
    destruct (json_loads (remove_code_fences (strip reply)))
      as [e1 | data] eqn:Hj.
    + rewrite (parse_result_raise _ _ Hj). split.
      * intros [= ->]. right. right. right. left. by exists reply.
      * intros [H | [[H _] | [(r & H & He) | [(r & H & _ & He)
                                             | (r & dt & H & _ & Hd & _)]]]];
          congruence.
    + assert (Hcases : (exists d, data = PyDict d) \/ forall d, data <> PyDict d)
        by (destruct data; eauto).
      destruct Hcases as [[d ->] | Hnd].
      * rewrite (parse_result_dict _ _ Hj). split; [done|].
        intros [H | [[H _] | [(r & H & He) | [(r & H & _ & He)
                                             | (r & dt & H & _ & Hd & Hdt & _)]]]];
          try congruence.
        all: injection H as <-; rewrite Hj in Hd; injection Hd as <-;
          by destruct (Hdt d).
      * rewrite (parse_result_not_dict _ _ Hj Hnd). split.
        -- intros [= <-]. right. right. right. right. by exists reply, data.
        -- intros [H | [[H _] | [(r & H & He) | [(r & H & _ & He)
                                               | (r & dt & H & _ & Hd & _ & ->)]]]];
             congruence.
  - split; [intros [= <-]; right; by left|].
    intros [H | [[_ ->] | [(r & H & _) | [(r & H & _) | (r & dt & H & _)]]]];
      congruence.
Qed.

(** *** The view and its dispatch *)

Lemma upload_and_analyze_missing req w :
  files req !! lit "resume" = None \/ form req !! lit "jd_text" = None ->
  upload_and_analyze generate_content fitz_open get_text json_loads
    console_write encoder_error req w
  = (Return {| body := missing_fields_error; status := 400 |}, w).
Proof.
  intros Hmiss. unfold upload_and_analyze, contains_key.
  destruct Hmiss as [-> | ->].
  - by rewrite bool_decide_eq_false_2 by (by intros [? ?]).
  - rewrite (bool_decide_eq_false_2 (is_Some (@None pystr)))
      by (by intros [? ?]).
    by rewrite orb_true_r.
Qed.

Lemma upload_and_analyze_run req (f : FileStorage) (jd : pystr) w :
  files req !! lit "resume" = Some f ->
  form req !! lit "jd_text" = Some jd ->
  upload_and_analyze generate_content fitz_open get_text json_loads
    console_write encoder_error req w
  = let w0 := World (ai w) (log w ++ [EvOpenPdf (buffer (stream f))]) in
    match fitz_open (buffer (stream f)) with
    | Raise e => (Raise e, w0)
    | Return doc =>
        let r := call_gemini generate_content json_loads console_write
                   (pages_text get_text doc) jd w0 in
        (match r.1 with
         | Raise e => Raise e
         | Return v => jsonify encoder_error v
         end, r.2)
    end.
Proof.
  intros Hf Hjd. unfold upload_and_analyze, contains_key, getitem.
  rewrite Hf, Hjd, !bool_decide_eq_true_2 by eauto. simpl.
  unfold mbind, M_bind at 1 2 3. unfold mret at 1 2, M_ret at 1 2.
  rewrite pdf_to_text_run.
  destruct (fitz_open (buffer (stream f))) as [e | doc]; [done|].
  cbv zeta. fold (pages_text get_text doc).
  unfold M_bind, lift.
  destruct (call_gemini _ _ _ _ _ _) as [[e | v] w']; reflexivity.
Qed.

Lemma post_upload_run req w :
  post_upload generate_content fitz_open get_text json_loads console_write
    encoder_error req w
  = let r := upload_and_analyze generate_content fitz_open get_text
               json_loads console_write encoder_error req w in
    (match r.1 with
     | Raise e =>
         if is_Exception e
         then Return {| body := PyDict (dict_of [(lit "error",
                                                  PyStr (exn_str e))]);
                        status := 500 |}
         else Raise e
     | Return resp => Return resp
     end, r.2).
Proof.
  unfold post_upload, try_except, handle_exception. cbv zeta.
  destruct (upload_and_analyze _ _ _ _ _ _ _ _) as [[e | resp] w'];
    simpl; [|done].
  destruct (is_Exception e); [|done].
  unfold mbind, M_bind, lift. by rewrite jsonify_error_envelope.
Qed.

(** *** The degraded result *)

Lemma degraded_fields e :
  exists d, degraded e = PyDict d /\
    d !! k_score = Some (PyInt 0) /\
    d !! k_explanation
      = Some (PyStr (lit "AI analysis failed: " ++ exn_str e)) /\
    d !! k_missing = Some (PyList []) /\
    d !! k_present = Some (PyList []) /\
    dom d = four_keys.
Proof.
  eexists. split; [reflexivity|].
  destruct (four_field_dict_lookup (PyInt 0)
              (PyStr (lit "AI analysis failed: " ++ exn_str e))
              (PyList []) (PyList [])) as (L1 & L2 & L3 & L4).
  repeat split; try done; apply four_field_dict_dom.
Qed.

(** C1. Whatever exception (of class [Exception]) the body of the [try]
    raises -- the model call failing, a response without text, a print
    the console refuses, a reply that is not JSON or not a JSON object --
    [call_gemini] returns the
    degraded dictionary built from it: score 0, an explanation that
    contains [str(e)], two empty lists; nothing propagates, and the
    [/upload] request, whose extraction succeeded, is answered with this
    dictionary and status 200. *)
Theorem call_gemini_failure_degraded
    req (resume_file : FileStorage) (jd_text : pystr) (doc : list page) w e :
  files req !! lit "resume" = Some resume_file ->
  form req !! lit "jd_text" = Some jd_text ->
  fitz_open (buffer (stream resume_file)) = Return doc ->
  let resume_txt := pages_text get_text doc in
  let w0 := World (ai w) (log w ++ [EvOpenPdf (buffer (stream resume_file))]) in
  (call_gemini_try generate_content json_loads console_write resume_txt jd_text w0).1
    = Raise e ->
  is_Exception e = true ->
  (call_gemini generate_content json_loads console_write resume_txt jd_text w0).1
    = Return (degraded e)
  /\ (post_upload generate_content fitz_open get_text json_loads console_write
      encoder_error req w).1
    = Return {| body := degraded e; status := 200 |}
  /\ exists d text,
      degraded e = PyDict d /\
      d !! k_score = Some (PyInt 0) /\
      d !! k_explanation = Some (PyStr text) /\
      str_contains text (exn_str e) /\
      d !! k_missing = Some (PyList []) /\
      d !! k_present = Some (PyList []).
Proof.
  intros Hf Hjd Hdoc resume_txt w0 Hraise Hexn.
  assert (Hcall :
    (call_gemini generate_content json_loads console_write resume_txt jd_text w0).1
      = Return (degraded e)).
  { rewrite call_gemini_run. cbv zeta. simpl. by rewrite Hraise, Hexn. }
  split; [exact Hcall|]. split.
  - rewrite post_upload_run. cbv zeta. simpl.
    rewrite (upload_and_analyze_run _ _ _ _ Hf Hjd). cbv zeta.
    rewrite Hdoc. simpl. fold resume_txt w0.
    by rewrite Hcall, jsonify_degraded.
  - destruct (degraded_fields e) as (d & Hd & L1 & L2 & L3 & L4 & _).
    exists d, (lit "AI analysis failed: " ++ exn_str e).
    repeat split; try done.
    exists (lit "AI analysis failed: "), []. by rewrite app_nil_r.
Qed.

(** *** Replies that parse to an object *)

Lemma call_gemini_object resume_txt jd_txt w reply d :
  (generate_content (ai w) model_id (build_contents resume_txt jd_txt)).1
    = Return (Some reply) ->
  refused console_write (reply_pieces reply) = None ->
  json_loads (remove_code_fences (strip reply)) = Return (PyDict d) ->
  (call_gemini generate_content json_loads console_write resume_txt jd_txt w).1
  = Return (PyDict (dict_of
      [(k_score, default (PyInt 0) (d !! k_score));
       (k_explanation, default (PyStr []) (d !! k_explanation));
       (k_missing, default (PyList []) (d !! k_missing));
       (k_present, default (PyList []) (d !! k_present))])).
Proof.
  intros Hreply Hprint Hjson. rewrite call_gemini_run. cbv zeta. simpl.
  rewrite call_gemini_try_outcome, Hreply, Hprint.
  by rewrite (parse_result_dict _ _ Hjson).
Qed.

(** C2, as amended. For a reply whose two prints the console takes and
    that parses to an object holding all four keys with the requested
    types, [call_gemini] returns that object restricted to the four keys:
    each of the four values is the parsed one, any other key is dropped,
    and when the object has no other key the result is the object
    itself. *)
Theorem expected_fields_pass_through resume_txt jd_txt w reply d :
  (generate_content (ai w) model_id (build_contents resume_txt jd_txt)).1
    = Return (Some reply) ->
  refused console_write (reply_pieces reply) = None ->
  json_loads (remove_code_fences (strip reply)) = Return (PyDict d) ->
  has_expected_fields d ->
  (call_gemini generate_content json_loads console_write resume_txt jd_txt w).1
    = Return (PyDict (restrict_four d))
  /\ (forall k, k ∈ four_keys -> restrict_four d !! k = d !! k)
  /\ (forall k, k ∉ four_keys -> restrict_four d !! k = None)
  /\ (dom d = four_keys ->
      (call_gemini generate_content json_loads console_write resume_txt jd_txt w).1
        = Return (PyDict d)).
Proof.
  intros Hreply Hprint Hjson
    ((v1 & H1 & _) & (v2 & H2 & _) & (v3 & H3 & _) & (v4 & H4 & _)).
  assert (Hcall :
    (call_gemini generate_content json_loads console_write resume_txt jd_txt w).1
      = Return (PyDict (restrict_four d))).
  { rewrite (call_gemini_object _ _ _ _ _ Hreply Hprint Hjson).
    rewrite H1, H2, H3, H4. simpl.
    by rewrite (four_field_dict_restrict d v1 v2 v3 v4). }
  split; [exact Hcall|]. split; [|split].
  - intros k Hk. unfold restrict_four. rewrite map_lookup_filter.
    destruct (d !! k) as [v|]; simpl; [|done].
    by rewrite option_guard_True.
  - intros k Hk. unfold restrict_four.
    apply map_lookup_filter_None_2. right. by intros x _.
  - intros Hdom. by rewrite Hcall, restrict_four_id.
Qed.

(** C3, as amended. For a reply whose two prints the console takes and
    that parses to an object, each of the four fields of the result is
    the object's value under that key when the key is present, and the
    default -- 0, the empty string, the empty list, the empty list --
    exactly when it is absent. *)
Theorem missing_keys_defaulted resume_txt jd_txt w reply d :
  (generate_content (ai w) model_id (build_contents resume_txt jd_txt)).1
    = Return (Some reply) ->
  refused console_write (reply_pieces reply) = None ->
  json_loads (remove_code_fences (strip reply)) = Return (PyDict d) ->
  exists r,
    (call_gemini generate_content json_loads console_write resume_txt jd_txt w).1
      = Return (PyDict r) /\
    field_rule d r k_score (PyInt 0) /\
    field_rule d r k_explanation (PyStr []) /\
    field_rule d r k_missing (PyList []) /\
    field_rule d r k_present (PyList []) /\
    dom r = four_keys.
Proof.
  intros Hreply Hprint Hjson. eexists. split.
  { exact (call_gemini_object _ _ _ _ _ Hreply Hprint Hjson). }
  destruct (four_field_dict_lookup
              (default (PyInt 0) (d !! k_score))
              (default (PyStr []) (d !! k_explanation))
              (default (PyList []) (d !! k_missing))
              (default (PyList []) (d !! k_present))) as (L1 & L2 & L3 & L4).
  unfold field_rule. split; [|split; [|split; [|split]]].
  - rewrite L1. by destruct (d !! k_score).
  - rewrite L2. by destruct (d !! k_explanation).
  - rewrite L3. by destruct (d !! k_missing).
  - rewrite L4. by destruct (d !! k_present).
  - apply four_field_dict_dom.
Qed.

(** *** Fenced replies *)

(** C4. A reply made of an opening fence, a body and a closing fence,
    with whitespace around it, is cleaned to the trimmed body: one opener
    and one closer are removed, whatever the body holds.  So the parse of
    the cleaned text is the parse of the trimmed body, which is also what
    the pipeline parses when the body is sent without any fence.  The
    closing check does not depend on the opening one: a text with a
    closing fence and no opener loses the closer alone. *)
Theorem fenced_reply_unwrapped (lead opener body trail : pystr) :
  forallb is_space lead = true ->
  forallb is_space trail = true ->
  opening_fence opener body ->
  let reply := lead ++ opener ++ body ++ fence ++ trail in
  remove_code_fences reply = strip body
  /\ remove_code_fences (strip reply) = strip body
  /\ parse_result json_loads (remove_code_fences (strip reply))
     = parse_result json_loads (strip body)
  /\ (startswith (strip body) fence = false ->
      endswith (strip body) fence = false ->
      parse_result json_loads (remove_code_fences (strip reply))
      = parse_result json_loads (remove_code_fences (strip body)))
  /\ (forall s : pystr,
      startswith (strip s) fence = false ->
      endswith (strip s) fence = true ->
      remove_code_fences s = strip (slice_to_neg 3 (strip s))).
Proof.
  intros Hlead Htrail Hopen reply.
  assert (Hclean : remove_code_fences reply = strip body).
  { subst reply. destruct Hopen as [-> | [-> Hbare]].
    - by apply remove_code_fences_json_fence.
    - by apply remove_code_fences_bare_fence. }
  assert (Hclean' : remove_code_fences (strip reply) = strip body)
    by (by rewrite remove_code_fences_strip).
  split; [exact Hclean|]. split; [exact Hclean'|].
  split; [by rewrite Hclean'|]. split.
  - intros Ho Hc. rewrite Hclean', remove_code_fences_strip.
    by rewrite (remove_code_fences_plain body Ho Hc).
  - intros s Ho Hc. unfold remove_code_fences.
    by rewrite (not_fence_not_fence_json _ Ho), Ho, Hc.
Qed.

(** *** Request intake *)

(** C5. A submission without the file field [resume] or without the form
    field [jd_text] is answered with status 400 and a body that has an
    [error] key; the world is left as it was: no document was opened and
    the model was not called. *)
Theorem missing_field_rejected req w :
  files req !! lit "resume" = None \/ form req !! lit "jd_text" = None ->
  post_upload generate_content fitz_open get_text json_loads console_write
      encoder_error req w
    = (Return {| body := missing_fields_error; status := 400 |}, w)
  /\ exists d msg,
       missing_fields_error = PyDict d /\
       d !! lit "error" = Some (PyStr msg).
Proof.
  intros Hmiss. split.
  - rewrite post_upload_run. cbv zeta.
    by rewrite (upload_and_analyze_missing _ _ Hmiss).
  - eexists _, _. split; [reflexivity|]. apply lookup_insert_eq.
Qed.

(** *** The message sent to the model *)

(** Every text has a cut, the one Python's slice takes. *)
Lemma cut_at_take (n : nat) (text : pystr) : cut_at n text (take n text).
Proof.
  exists (drop n text). split; [by rewrite take_drop|].
  destruct (decide (n <= length text)) as [Hle | Hgt].
  - left. rewrite length_take. lia.
  - right. rewrite drop_ge by lia. rewrite length_take. split; [done | lia].
Qed.

Lemma cut_at_unique (n : nat) (text kept : pystr) :
  cut_at n text kept -> kept = take n text.
Proof.
  intros (dropped & -> & [Hlen | [-> Hlen]]).
  - by rewrite <- Hlen, take_app_length.
  - rewrite app_nil_r. by rewrite take_ge.
Qed.

(** C6. The message the model is called with has three entries of role
    [user], each with one text part: the prompt, [Resume:] and a line end
    followed by the resume text cut at 4000 characters, [Job
    Description:] and a line end followed by the job description cut at
    2000.  A text longer than its cutoff contributes exactly its first
    4000 (2000) characters and nothing of the rest; a text within the
    cutoff is sent whole. *)
Theorem prompt_truncation resume_txt jd_txt w (sent_resume sent_jd : pystr) :
  cut_at 4000 resume_txt sent_resume ->
  cut_at 2000 jd_txt sent_jd ->
  map entry_role (build_contents resume_txt jd_txt)
    = [ Some (PyStr (lit "user")); Some (PyStr (lit "user"));
        Some (PyStr (lit "user")) ]
  /\ map entry_texts (build_contents resume_txt jd_txt)
    = [ Some [Some (PyStr prompt)];
        Some [Some (PyStr (lit "Resume:" ++ [10%N] ++ sent_resume))];
        Some [Some (PyStr (lit "Job Description:" ++ [10%N] ++ sent_jd))] ]
  /\ exists rest,
       log (call_gemini generate_content json_loads console_write
              resume_txt jd_txt w).2
       = log w ++ EvGenerate (lit "models/gemini-2.5-pro")
                    (build_contents resume_txt jd_txt) :: rest.
Proof.
  intros ->%cut_at_unique ->%cut_at_unique.
  split; [reflexivity|]. split; [reflexivity|].
  rewrite call_gemini_run. cbv zeta. cbn [snd].
  apply call_gemini_try_log.
Qed.

(** *** Extraction failures *)

(** C7, as amended. When PyMuPDF refuses the uploaded bytes, raising an
    [Exception], [pdf_to_text] raises that exception, the view lets it
    escape, and Flask hands it to [handle_exception]: status 500 with a
    body whose only key, [error], holds [str(e)].  The model is not
    called.  (Which bytes the library refuses is the library's matter: a
    damaged file it can repair is opened.) *)
Theorem malformed_pdf_server_error req (f : FileStorage) (jd : pystr) w e :
  files req !! lit "resume" = Some f ->
  form req !! lit "jd_text" = Some jd ->
  fitz_open (buffer (stream f)) = Raise e ->
  is_Exception e = true ->
  let w0 := World (ai w) (log w ++ [EvOpenPdf (buffer (stream f))]) in
  pdf_to_text fitz_open get_text (stream f) w = (Raise e, w0)
  /\ upload_and_analyze generate_content fitz_open get_text json_loads console_write
      encoder_error req w
     = (Raise e, w0)
  /\ post_upload generate_content fitz_open get_text json_loads
       console_write encoder_error req w
     = (Return {| body := PyDict (dict_of [(lit "error", PyStr (exn_str e))]);
                  status := 500 |}, w0)
  /\ dict_of [(lit "error", PyStr (exn_str e))] !! lit "error"
     = Some (PyStr (exn_str e))
  /\ dom (dict_of [(lit "error", PyStr (exn_str e))])
     = ({[ lit "error" ]} : gset pystr).
Proof.
  intros Hf Hjd Hbad Hexn w0.
  assert (Hview :
    upload_and_analyze generate_content fitz_open get_text json_loads console_write
      encoder_error req w
    = (Raise e, w0)).
  { rewrite (upload_and_analyze_run _ _ _ _ Hf Hjd). cbv zeta.
    by rewrite Hbad. }
  split; [by rewrite pdf_to_text_run, Hbad|]. split; [exact Hview|].
  split.
  { rewrite post_upload_run. cbv zeta. rewrite Hview. simpl.
    by rewrite Hexn. }
  split; [apply lookup_insert_eq|].
  unfold dict_of. simpl. rewrite dom_insert_L, dom_empty_L.
  apply union_empty_r_L.
Qed.

(** *** Determinism *)

Lemma call_gemini_outcome_deterministic resume_txt jd_txt w w' :
  deterministic_model generate_content ->
  (call_gemini generate_content json_loads console_write resume_txt jd_txt w).1
  = (call_gemini generate_content json_loads console_write resume_txt jd_txt w').1.
Proof.
  intros Hdet. rewrite !call_gemini_run. cbv zeta. cbn [fst].
  rewrite !call_gemini_try_outcome.
  by rewrite (Hdet (ai w) (ai w')).
Qed.

(** C8. Against a deterministic model, two submissions of the same
    resume bytes and job-description text get the same response, from
    whatever worlds they start: nothing a request leaves behind reaches
    the next one. *)
Theorem same_submission_same_result req1 req2 w1 w2 :
  deterministic_model generate_content ->
  same_submission req1 req2 ->
  (post_upload generate_content fitz_open get_text json_loads console_write
      encoder_error req1 w1).1
  = (post_upload generate_content fitz_open get_text json_loads console_write
      encoder_error req2 w2).1.
Proof.
  intros Hdet [Hfiles Hform]. rewrite !post_upload_run. cbv zeta. cbn [fst].
  destruct (files req1 !! lit "resume") as [f1|] eqn:Hf1;
    destruct (files req2 !! lit "resume") as [f2|] eqn:Hf2;
    try discriminate Hfiles.
  2: { rewrite !upload_and_analyze_missing by (by left). done. }
  destruct (form req1 !! lit "jd_text") as [jd|] eqn:Hjd1.
  2: { symmetry in Hform.
       rewrite !upload_and_analyze_missing by (by right). done. }
  symmetry in Hform.
  rewrite (upload_and_analyze_run _ _ _ _ Hf1 Hjd1).
  rewrite (upload_and_analyze_run _ _ _ _ Hf2 Hform). cbv zeta.
  simpl in Hfiles. injection Hfiles as ->.
  destruct (fitz_open (buffer (stream f2))) as [e | doc]; [done|].
  cbn [fst].
  by rewrite (call_gemini_outcome_deterministic _ _ _
                (World (ai w2) (log w2 ++ [EvOpenPdf (buffer (stream f2))]))
                Hdet).
Qed.

(** *** The shape of every result *)

(** [call_gemini] returns a dictionary built by one of its two displays,
    unless an exception outside [Exception] passes through. *)
Lemma call_gemini_outcome_cases resume_txt jd_txt w :
  (exists v1 v2 v3 v4,
     (call_gemini generate_content json_loads console_write resume_txt jd_txt w).1
     = Return (PyDict (dict_of [(k_score, v1); (k_explanation, v2);
                                (k_missing, v3); (k_present, v4)])))
  \/ (exists e,
        is_Exception e = false /\
        (call_gemini_try generate_content json_loads console_write resume_txt jd_txt w).1
          = Raise e /\
        (call_gemini generate_content json_loads console_write resume_txt jd_txt w).1
          = Raise e).
Proof.
  rewrite call_gemini_run. cbv zeta. cbn [fst].
  destruct (call_gemini_try _ _ _ _ _ _).1 as [e | v] eqn:Htry.
  - destruct (is_Exception e) eqn:He.
    + left. unfold degraded. eauto.
    + right. eauto.
  - left. rewrite call_gemini_try_outcome in Htry.
    destruct (generate_content _ _ _).1 as [e | [reply |]]; try discriminate.
    destruct (refused console_write (reply_pieces reply)); [discriminate|].
    unfold parse_result in Htry.
    destruct (json_loads _) as [e | data]; [discriminate|].
    destruct data; try discriminate. simpl in Htry.
    injection Htry as <-. eauto.
Qed.

(** C10. A value returned by [call_gemini], from the [try] or from the
    [except], is a dictionary whose keys are exactly [score],
    [explanation], [missing_skills] and [present_skills]; any other key
    of the parsed reply is absent from it. *)
Theorem call_gemini_four_keys resume_txt jd_txt w (v : pyval) :
  (call_gemini generate_content json_loads console_write resume_txt jd_txt w).1
    = Return v ->
  exists d, v = PyDict d /\ dom d = four_keys /\
    (forall k, k ∉ four_keys -> d !! k = None).
Proof.
  intros Hret.
  destruct (call_gemini_outcome_cases resume_txt jd_txt w)
    as [(v1 & v2 & v3 & v4 & H) | (e & _ & _ & H)];
    rewrite H in Hret; [|discriminate].
  injection Hret as <-. eexists. split; [reflexivity|]. split.
  - apply four_field_dict_dom.
  - intros k Hk. by apply four_field_dict_other.
Qed.

End PipelineFacts.


(** * More about the cleaner *)

Section TrimFacts.

Implicit Types s t a b lead trail : pystr.

Lemma lstrip_decompose s :
  exists lead, s = lead ++ lstrip s /\ forallb is_space lead = true.
Proof.
  induction s as [|c s (lead & Hs & Hlead)]; simpl.
  - by exists [].
  - destruct (is_space c) eqn:Hc.
    + exists (c :: lead). simpl. rewrite Hc, Hlead. split; [|done].
      by rewrite <- Hs.
    + by exists [].
Qed.

Lemma rstrip_decompose s :
  exists trail, s = rstrip s ++ trail /\ forallb is_space trail = true.
Proof.
  destruct (lstrip_decompose (rev s)) as (lead & Hs & Hlead).
  exists (rev lead). split; [|by rewrite forallb_rev].
  unfold rstrip. rewrite <- rev_app_distr, <- Hs. by rewrite rev_involutive.
Qed.

Lemma strip_decompose s :
  exists lead trail,
    s = lead ++ strip s ++ trail /\
    forallb is_space lead = true /\ forallb is_space trail = true.
Proof.
  destruct (lstrip_decompose s) as (lead & Hs & Hlead).
  destruct (rstrip_decompose (lstrip s)) as (trail & Ht & Htrail).
  exists lead, trail. unfold strip. by rewrite <- Ht.
Qed.

Lemma last_kept_rstrip s : last_kept (rstrip s) = true.
Proof.
  unfold last_kept, rstrip. rewrite rev_involutive. apply head_kept_lstrip.
Qed.

Lemma head_kept_prefix a b : head_kept (a ++ b) = true -> head_kept a = true.
Proof. by destruct a. Qed.

Lemma head_kept_strip s : head_kept (strip s) = true.
Proof.
  unfold strip.
  destruct (rstrip_decompose (lstrip s)) as (trail & Ht & _).
  apply (head_kept_prefix _ trail). rewrite <- Ht. apply head_kept_lstrip.
Qed.

Lemma last_kept_strip s : last_kept (strip s) = true.
Proof. apply last_kept_rstrip. Qed.

Lemma last_kept_app a b : b <> [] -> last_kept (a ++ b) = last_kept b.
Proof.
  intros Hb. unfold last_kept. rewrite rev_app_distr.
  destruct (rev b) as [|c r] eqn:Hr; [|done].
  apply (f_equal (@rev N)) in Hr. rewrite rev_involutive in Hr. done.
Qed.

Lemma rstrip_all_spaces ws : forallb is_space ws = true -> rstrip ws = [].
Proof.
  intros H. unfold rstrip. rewrite lstrip_all_spaces; [done|].
  by rewrite forallb_rev.
Qed.

(** Trimming at the end does not reach into a front part that ends with a
    kept character. *)
Lemma rstrip_app_kept a b :
  a <> [] -> last_kept a = true -> rstrip (a ++ b) = a ++ rstrip b.
Proof.
  intros Ha Hl. destruct (rstrip_decompose b) as (trail & Hb & Htrail).
  rewrite Hb at 1. rewrite app_assoc, rstrip_app_spaces by exact Htrail.
  apply rstrip_last_kept.
  destruct (rstrip b) as [|c r] eqn:Hr.
  - by rewrite app_nil_r.
  - rewrite last_kept_app by done. rewrite <- Hr. apply last_kept_rstrip.
Qed.

Lemma strip_rstrip s : strip (rstrip s) = strip s.
Proof.
  destruct (strip_decompose s) as (lead & trail & Hs & Hlead & Htrail).
  rewrite Hs at 1. rewrite app_assoc, rstrip_app_spaces by exact Htrail.
  destruct (strip s) as [|c core] eqn:Hcore.
  - rewrite app_nil_r, rstrip_all_spaces by exact Hlead. reflexivity.
  - assert (Hl : last_kept (c :: core) = true)
      by (rewrite <- Hcore; apply last_kept_strip).
    assert (Hh : head_kept (c :: core) = true)
      by (rewrite <- Hcore; apply head_kept_strip).
    rewrite rstrip_last_kept by (by rewrite last_kept_app).
    rewrite <- (app_nil_r (lead ++ c :: core)), <- app_assoc.
    by apply strip_margins.
Qed.

Lemma startswith_rstrip_false s p :
  startswith s p = false -> startswith (rstrip s) p = false.
Proof.
  intros H. destruct (startswith (rstrip s) p) eqn:E; [|done].
  apply startswith_spec in E as [r Hr].
  destruct (rstrip_decompose s) as (trail & Hs & _).
  rewrite Hr, <- app_assoc in Hs. rewrite Hs in H.
  by rewrite startswith_app in H.
Qed.

Lemma str_contains_refl s : str_contains s s.
Proof. exists [], []. by rewrite app_nil_r. Qed.

Lemma str_contains_trans s t a :
  str_contains s t -> str_contains t a -> str_contains s a.
Proof.
  intros (x & y & ->) (x' & y' & ->).
  exists (x ++ x'), (y' ++ y). by rewrite <- !app_assoc.
Qed.

Lemma str_contains_strip s : str_contains s (strip s).
Proof.
  destruct (strip_decompose s) as (lead & trail & Hs & _). by exists lead, trail.
Qed.

Lemma str_contains_drop n s : str_contains s (drop n s).
Proof. exists (take n s), []. by rewrite app_nil_r, take_drop. Qed.

Lemma str_contains_take n s : str_contains s (take n s).
Proof. exists [], (drop n s). simpl. by rewrite take_drop. Qed.

Lemma str_contains_length s t : str_contains s t -> length t <= length s.
Proof. intros (x & y & ->). rewrite !length_app. lia. Qed.

End TrimFacts.

Section CleanerFacts.

Implicit Types s body lead : pystr.

(** X1. Whatever the input, the text [remove_code_fences] returns is
    trimmed: it neither begins nor ends with whitespace, and trimming it
    again changes nothing. *)
Theorem remove_code_fences_trimmed s :
  strip (remove_code_fences s) = remove_code_fences s
  /\ head_kept (remove_code_fences s) = true
  /\ last_kept (remove_code_fences s) = true.
Proof.
  assert (H : strip (remove_code_fences s) = remove_code_fences s).
  { unfold remove_code_fences.
    repeat match goal with |- context [if ?b then _ else _] => destruct b end;
      apply strip_idem. }
  split; [exact H|]. rewrite <- H.
  split; [apply head_kept_strip | apply last_kept_strip].
Qed.

(** X2. [remove_code_fences] only removes: its result is a contiguous
    part of the input, so it is never longer and holds no character that
    was not there. *)
Theorem remove_code_fences_substring s :
  str_contains s (remove_code_fences s)
  /\ length (remove_code_fences s) <= length s.
Proof.
  assert (H : str_contains s (remove_code_fences s)).
  { unfold remove_code_fences.
    apply (str_contains_trans _ (strip s)); [apply str_contains_strip|].
    set (t0 := strip s).
    assert (H1 : str_contains t0
              (if startswith t0 fence_json then strip (slice_from 7 t0)
               else if startswith t0 fence then strip (slice_from 3 t0)
               else t0)).
    { destruct (startswith t0 fence_json); [|destruct (startswith t0 fence)].
      - eapply str_contains_trans;
          [apply (str_contains_drop 7) | apply str_contains_strip].
      - eapply str_contains_trans;
          [apply (str_contains_drop 3) | apply str_contains_strip].
      - apply str_contains_refl. }
    set (t1 := if startswith t0 fence_json then strip (slice_from 7 t0)
               else if startswith t0 fence then strip (slice_from 3 t0)
               else t0) in *.
    apply (str_contains_trans _ t1); [exact H1|].
    destruct (endswith t1 fence).
    - eapply str_contains_trans;
        [apply str_contains_take | apply str_contains_strip].
    - apply str_contains_refl. }
  split; [exact H | by apply str_contains_length].
Qed.

(** X3. A reply that opens a fence and never closes it (a reply cut
    short): the opener is removed all the same and the trimmed rest is
    returned, provided that rest does not end with a fence. *)
Theorem opener_without_closer lead opener body :
  forallb is_space lead = true ->
  opening_fence opener body ->
  endswith (strip body) fence = false ->
  remove_code_fences (lead ++ opener ++ body) = strip body.
Proof.
  intros Hlead Hopen Hclose.
  assert (Hstrip : strip (lead ++ opener ++ body) = opener ++ rstrip body).
  { unfold strip. rewrite lstrip_spaces_app by exact Hlead.
    rewrite lstrip_head_kept by (by destruct Hopen as [-> | [-> _]]).
    apply rstrip_app_kept; by destruct Hopen as [-> | [-> _]]. }
  unfold remove_code_fences. rewrite Hstrip.
  destruct Hopen as [-> | [-> Hbare]].
  - rewrite (json_opener_removed (rstrip body)), strip_rstrip.
    by rewrite Hclose.
  - rewrite (bare_opener_removed (rstrip body))
      by (by apply startswith_rstrip_false).
    rewrite strip_rstrip. by rewrite Hclose.
Qed.

End CleanerFacts.


(** * More about a request *)

Section RequestFacts.

Context {AI page : Type}.
Variable generate_content :
  AI -> pystr -> list pyval -> outcome (option pystr) * AI.
Variable fitz_open : list byte -> outcome (list page).
Variable get_text : page -> pystr.
Variable json_loads : pystr -> outcome pyval.
Variable console_write : pystr -> outcome unit.
Variable encoder_error : pyval -> option pyexn.

Implicit Types w : world AI.
Implicit Types req : request.
Implicit Types e : pyexn.
Implicit Types doc : list page.

(** *** Extraction *)

Lemma pages_text_from (acc : pystr) doc :
  foldl (fun text p => text ++ get_text p) acc doc
  = acc ++ concat (map get_text doc).
Proof.
  revert acc. induction doc as [|p doc IH]; intros acc; simpl.
  - by rewrite app_nil_r.
  - by rewrite IH, <- app_assoc.
Qed.

Lemma pages_text_concat doc :
  pages_text get_text doc = concat (map get_text doc).
Proof. unfold pages_text. by rewrite pages_text_from. Qed.

(** X4. When the document opens, [pdf_to_text] returns the texts of its
    pages joined in page order with nothing between them; a document
    without pages gives the empty string, not an error. *)
Theorem pdf_to_text_concatenates (fs : file_stream) doc w :
  fitz_open (buffer fs) = Return doc ->
  (pdf_to_text fitz_open get_text fs w).1
  = Return (concat (map get_text doc)).
Proof.
  intros Hdoc. rewrite pdf_to_text_run, Hdoc. cbn [fst].
  by rewrite pages_text_concat.
Qed.

(** X5. [pdf_to_text] rewinds the stream: whatever its position, the
    whole buffer is handed to PyMuPDF, so two streams over the same bytes
    give the same result. *)
Theorem pdf_to_text_rewinds (fs fs' : file_stream) w :
  buffer fs = buffer fs' ->
  pdf_to_text fitz_open get_text fs w = pdf_to_text fitz_open get_text fs' w
  /\ log (pdf_to_text fitz_open get_text fs w).2
     = log w ++ [EvOpenPdf (buffer fs)].
Proof.
  intros Hbuf. rewrite !pdf_to_text_run, Hbuf. done.
Qed.

(** *** What a call leaves in the world *)

Lemma call_gemini_world resume_txt jd_txt w :
  let r := generate_content (ai w) model_id (build_contents resume_txt jd_txt) in
  (call_gemini generate_content json_loads console_write resume_txt jd_txt w).2
  = World r.2
      (log w ++ EvGenerate model_id (build_contents resume_txt jd_txt)
            :: writes_of_answer console_write r.1).
Proof.
  cbv zeta. rewrite call_gemini_run. cbv zeta. cbn [snd].
  by rewrite call_gemini_try_run.
Qed.



Lemma accepted_writes_only (pieces : list pystr) :
  exists written, accepted console_write pieces = map EvWrite written
                  /\ written `prefix_of` pieces.
Proof.
  induction pieces as [|p ps (written & Hw & Hpre)]; simpl.
  - by exists [].
  - destruct (console_write p).
    + exists []. split; [done|]. apply prefix_nil.
    + exists (p :: written). simpl. rewrite Hw. split; [done|].
      by apply prefix_cons.
Qed.


(** X7. A request with both fields opens the uploaded bytes once, first;
    the model is called, once, only if the document opened; nothing else
    follows but console writes. *)
Theorem post_upload_trace req (f : FileStorage) (jd : pystr) w :
  files req !! lit "resume" = Some f ->
  form req !! lit "jd_text" = Some jd ->
  exists written,
    log (post_upload generate_content fitz_open get_text json_loads
           console_write encoder_error req w).2
    = log w ++ EvOpenPdf (buffer (stream f)) ::
        match fitz_open (buffer (stream f)) with
        | Raise _ => []
        | Return doc =>
            EvGenerate (lit "models/gemini-2.5-pro")
              (build_contents (pages_text get_text doc) jd)
              :: map EvWrite written
        end.
Proof.
  intros Hf Hjd. rewrite post_upload_run. cbv zeta. cbn [snd].
  rewrite (upload_and_analyze_run _ _ _ _ _ _ _ _ _ _ Hf Hjd). cbv zeta.
  destruct (fitz_open (buffer (stream f))) as [e | doc]; [by exists []|].
  cbn [snd]. rewrite call_gemini_world. cbv zeta. cbn [ai log].
  change model_id with (lit "models/gemini-2.5-pro").
  destruct (generate_content _ _ _).1 as [e | [reply |]];
    cbn [writes_of_answer map].
  - exists []. by rewrite <- app_assoc.
  - destruct (accepted_writes_only (reply_pieces reply))
      as (written & Hw & _).
    exists written. by rewrite Hw, <- app_assoc.
  - exists []. by rewrite <- app_assoc.
Qed.

(** *** Replies that are JSON but not an object *)

(** X8. A reply that the console takes in both prints and that is valid
    JSON but not an object (an array, a number, a string, [true],
    [null]) is treated as a failure: the result is the degraded
    dictionary whose explanation names the missing attribute [get] of
    the parsed value's type. *)
Theorem non_object_reply_degraded resume_txt jd_txt w reply (data : pyval) :
  (generate_content (ai w) model_id (build_contents resume_txt jd_txt)).1
    = Return (Some reply) ->
  refused console_write (reply_pieces reply) = None ->
  json_loads (remove_code_fences (strip reply)) = Return data ->
  (forall d, data <> PyDict d) ->
  (call_gemini generate_content json_loads console_write resume_txt jd_txt w).1
  = Return (degraded (AttributeError (type_name data) (lit "get"))).
Proof.
  intros Hreply Hprint Hjson Hnd. rewrite call_gemini_run. cbv zeta. cbn [fst].
  rewrite call_gemini_try_outcome, Hreply, Hprint.
  by rewrite (parse_result_not_dict _ _ _ Hjson Hnd).
Qed.

(** *** Exceptions outside [Exception] *)

(** X9. An exception that is not an [Exception] ([KeyboardInterrupt],
    [SystemExit]) raised in the body of the [try] is neither turned into
    a degraded result by [call_gemini] nor into a 500 response by the
    error handler: it propagates out of both. *)
Theorem base_exception_passes_through
    req (f : FileStorage) (jd : pystr) doc w e :
  files req !! lit "resume" = Some f ->
  form req !! lit "jd_text" = Some jd ->
  fitz_open (buffer (stream f)) = Return doc ->
  let resume_txt := pages_text get_text doc in
  let w0 := World (ai w) (log w ++ [EvOpenPdf (buffer (stream f))]) in
  (call_gemini_try generate_content json_loads console_write resume_txt jd w0).1 = Raise e ->
  is_Exception e = false ->
  (call_gemini generate_content json_loads console_write resume_txt jd w0).1 = Raise e
  /\ (post_upload generate_content fitz_open get_text json_loads console_write
      encoder_error req w).1
     = Raise e.
Proof.
  intros Hf Hjd Hdoc resume_txt w0 Hraise Hbase.
  assert (Hcall :
    (call_gemini generate_content json_loads console_write resume_txt jd w0).1 = Raise e).
  { rewrite call_gemini_run. cbv zeta. cbn [fst]. by rewrite Hraise, Hbase. }
  split; [exact Hcall|].
  rewrite post_upload_run. cbv zeta. cbn [fst].
  rewrite (upload_and_analyze_run _ _ _ _ _ _ _ _ _ _ Hf Hjd). cbv zeta.
  rewrite Hdoc. cbn [fst]. fold resume_txt w0. rewrite Hcall.
  lazy beta iota. by rewrite Hbase.
Qed.

(** *** Every response *)

(** X10. Every response [POST /upload] returns is one of three: 400 with
    the missing-fields error when a field is absent; 500 with
    [{"error": str(e)}] when both are there and either the document does
    not open or the result of [call_gemini], nested more than two levels
    deep, makes [jsonify] raise; 200 with a dictionary of exactly the
    four keys when both are there, the document opened and the result was
    serialised, whatever the model did. *)
Theorem post_upload_status_table req w (resp : response) :
  (post_upload generate_content fitz_open get_text json_loads console_write
     encoder_error req w).1
    = Return resp ->
  (status resp = 400 /\ body resp = missing_fields_error /\
   (files req !! lit "resume" = None \/ form req !! lit "jd_text" = None))
  \/ (exists (f : FileStorage) (jd : pystr) e,
        files req !! lit "resume" = Some f /\
        form req !! lit "jd_text" = Some jd /\
        is_Exception e = true /\
        status resp = 500 /\
        body resp = PyDict (dict_of [(lit "error", PyStr (exn_str e))]) /\
        (fitz_open (buffer (stream f)) = Raise e
         \/ exists doc (v : pyval),
              fitz_open (buffer (stream f)) = Return doc /\
              (call_gemini generate_content json_loads console_write
                 (pages_text get_text doc) jd
                 (World (ai w) (log w ++ [EvOpenPdf (buffer (stream f))]))).1
                = Return v /\
              2 < depth v /\
              jsonify encoder_error v = Raise e))
  \/ (exists (f : FileStorage) (jd : pystr) doc (d : gmap pystr pyval),
        files req !! lit "resume" = Some f /\
        form req !! lit "jd_text" = Some jd /\
        fitz_open (buffer (stream f)) = Return doc /\
        status resp = 200 /\
        body resp = PyDict d /\ dom d = four_keys).
Proof.
  rewrite post_upload_run. cbv zeta. cbn [fst].
  destruct (files req !! lit "resume") as [f|] eqn:Hf.
  2: { rewrite upload_and_analyze_missing by (by left).
       intros [= <-]. left. eauto. }
  destruct (form req !! lit "jd_text") as [jd|] eqn:Hjd.
  2: { rewrite upload_and_analyze_missing by (by right).
       intros [= <-]. left. eauto. }
  rewrite (upload_and_analyze_run _ _ _ _ _ _ _ _ _ _ Hf Hjd). cbv zeta.
  destruct (fitz_open (buffer (stream f))) as [e | doc] eqn:Hdoc.
  - cbn [fst]. destruct (is_Exception e) eqn:He; [|done].
    intros [= <-]. right. left. exists f, jd, e. eauto 10.
  - cbn [fst].
    destruct (call_gemini_outcome_cases generate_content json_loads
                console_write (pages_text get_text doc) jd
                (World (ai w) (log w ++ [EvOpenPdf (buffer (stream f))])))
      as [(v1 & v2 & v3 & v4 & Hcall) | (e & Hbase & _ & ->)].
    + rewrite Hcall.
      destruct (jsonify_cases encoder_error
                  (PyDict (dict_of [(k_score, v1); (k_explanation, v2);
                                    (k_missing, v3); (k_present, v4)])))
        as [-> | (e & Hraise & Hdeep & _)].
      * intros [= <-]. right. right. exists f, jd, doc. eexists.
        repeat split; try done; apply four_field_dict_dom.
      * rewrite Hraise. destruct (is_Exception e) eqn:He; [|done].
        intros [= <-]. right. left. exists f, jd, e.
        split; [reflexivity|]. split; [reflexivity|]. split; [exact He|].
        split; [reflexivity|]. split; [reflexivity|].
        right. eexists doc, _. split; [exact Hdoc|].
        split; [exact Hcall|]. split; [exact Hdeep | exact Hraise].
    + by rewrite Hbase.
Qed.

(** *** What a request is read for *)

(** X11. From the same world, two requests whose extracted resume texts
    agree on their first 4000 characters and whose job descriptions agree
    on their first 2000 get the same response: nothing beyond the cutoffs
    reaches the model. *)
Theorem same_prefix_same_response
    req1 req2 (f1 f2 : FileStorage) (jd1 jd2 : pystr) doc1 doc2 w :
  files req1 !! lit "resume" = Some f1 ->
  form req1 !! lit "jd_text" = Some jd1 ->
  files req2 !! lit "resume" = Some f2 ->
  form req2 !! lit "jd_text" = Some jd2 ->
  fitz_open (buffer (stream f1)) = Return doc1 ->
  fitz_open (buffer (stream f2)) = Return doc2 ->
  slice_to 4000 (pages_text get_text doc1)
    = slice_to 4000 (pages_text get_text doc2) ->
  slice_to 2000 jd1 = slice_to 2000 jd2 ->
  (post_upload generate_content fitz_open get_text json_loads console_write
      encoder_error req1 w).1
  = (post_upload generate_content fitz_open get_text json_loads console_write
      encoder_error req2 w).1.
Proof.
  intros Hf1 Hjd1 Hf2 Hjd2 Hdoc1 Hdoc2 Hr Hj.
  rewrite !post_upload_run. cbv zeta. cbn [fst].
  rewrite (upload_and_analyze_run _ _ _ _ _ _ _ _ _ _ Hf1 Hjd1).
  rewrite (upload_and_analyze_run _ _ _ _ _ _ _ _ _ _ Hf2 Hjd2). cbv zeta.
  rewrite Hdoc1, Hdoc2. cbn [fst].
  assert (Hc : build_contents (pages_text get_text doc1) jd1
               = build_contents (pages_text get_text doc2) jd2)
    by (unfold build_contents; by rewrite Hr, Hj).
  rewrite !call_gemini_run. cbv zeta. cbn [fst].
  rewrite !call_gemini_try_outcome. cbn [ai]. by rewrite Hc.
Qed.

(** X12. The request is read for the bytes of [resume] and the text of
    [jd_text] only: requests that agree on these (and may differ in file
    name, stream position, other fields) have the same outcome and leave
    the same world. *)
Theorem request_read_for_two_fields req1 req2 w :
  same_submission req1 req2 ->
  post_upload generate_content fitz_open get_text json_loads console_write
      encoder_error req1 w
  = post_upload generate_content fitz_open get_text json_loads console_write
      encoder_error req2 w.
Proof.
  intros [Hfiles Hform]. rewrite !post_upload_run. cbv zeta.
  assert (Hview :
    upload_and_analyze generate_content fitz_open get_text json_loads console_write
      encoder_error req1 w
    = upload_and_analyze generate_content fitz_open get_text json_loads console_write
      encoder_error req2 w).
  { destruct (files req1 !! lit "resume") as [f1|] eqn:Hf1;
      destruct (files req2 !! lit "resume") as [f2|] eqn:Hf2;
      try discriminate Hfiles.
    2: { by rewrite !upload_and_analyze_missing by (by left). }
    destruct (form req1 !! lit "jd_text") as [jd|] eqn:Hjd1.
    2: { symmetry in Hform.
         by rewrite !upload_and_analyze_missing by (by right). }
    symmetry in Hform.
    rewrite (upload_and_analyze_run _ _ _ _ _ _ _ _ _ _ Hf1 Hjd1).
    rewrite (upload_and_analyze_run _ _ _ _ _ _ _ _ _ _ Hf2 Hform).
    simpl in Hfiles. injection Hfiles as ->. done. }
  by rewrite Hview.
Qed.

End RequestFacts.


(** * The theorems at the sample requests *)

Import Sample.
Import Sample2.

Lemma call_gemini_failure_degraded_witness :
  (Double.post_upload (Raise network_error) pages req w0).1
  = Return {| body := degraded network_error; status := 200 |}.
Proof.
  refine (proj1 (proj2
    (call_gemini_failure_degraded
       (Double.generate_content (Raise network_error))
       (Double.fitz_open pages) Double.get_text Double.json_loads
       Double.console_write Double.encoder_error
       req resume_file jd pages w0 network_error _ _ _ _ _)));
    reflexivity.
Defined.

Lemma sample_extra_has_expected_fields : has_expected_fields parsed_extra.
Proof.
  repeat split; eexists; (split; [vm_compute; reflexivity | reflexivity]).
Qed.

Lemma sample_surrogate_has_expected_fields :
  has_expected_fields parsed_surrogate_full.
Proof.
  repeat split; eexists; (split; [vm_compute; reflexivity | reflexivity]).
Qed.

(** C2, as stated, fails, in two ways.  The first reply is a JSON object
    that holds all four keys with the requested types and one more key;
    [call_gemini] returns the four fields only, which is not the parsed
    object.  The second holds exactly the four keys, well typed, but its
    explanation is a lone surrogate: on a UTF-8 console the first print
    raises [UnicodeEncodeError] inside the [try], and the result is the
    degraded dictionary, not the parsed object. *)
Lemma verbatim_fails_on_extra_key :
  (Double.json_loads (remove_code_fences (strip reply_extra))
     = Return (PyDict parsed_extra)
   /\ has_expected_fields parsed_extra
   /\ (Double.call_gemini (Return (Some reply_extra)) resume_txt jd w0).1
      = Return (PyDict parsed_full)
   /\ PyDict parsed_full <> PyDict parsed_extra)
  /\
  (Double.json_loads (remove_code_fences (strip reply_surrogate_full))
     = Return (PyDict parsed_surrogate_full)
   /\ has_expected_fields parsed_surrogate_full
   /\ (Double.call_gemini (Return (Some reply_surrogate_full))
         resume_txt jd w0).1
      = Return (degraded (Double.UnicodeEncodeError 29 55296))
   /\ degraded (Double.UnicodeEncodeError 29 55296)
      <> PyDict parsed_surrogate_full).
Proof.
  split.
  - split; [vm_compute; reflexivity|].
    split; [exact sample_extra_has_expected_fields|].
    split; [vm_compute; reflexivity|].
    intros H.
    apply (f_equal (fun v => match v with
                             | PyDict m => m !! lit "confidence"
                             | _ => None
                             end)) in H.
    vm_compute in H. discriminate H.
  - split; [vm_compute; reflexivity|].
    split; [exact sample_surrogate_has_expected_fields|].
    split; [vm_compute; reflexivity|].
    intros H.
    apply (f_equal (fun v => match v with
                             | PyDict m => m !! k_score
                             | _ => None
                             end)) in H.
    vm_compute in H. discriminate H.
Qed.

Lemma expected_fields_pass_through_witness :
  (Double.call_gemini (Return (Some reply_extra)) resume_txt jd w0).1
  = Return (PyDict (restrict_four parsed_extra)).
Proof.
  refine (proj1
    (expected_fields_pass_through
       (Double.generate_content (Return (Some reply_extra)))
       Double.json_loads Double.console_write
       resume_txt jd w0 reply_extra parsed_extra _ _ _ _)).
  - reflexivity.
  - vm_compute. reflexivity.
  - vm_compute. reflexivity.
  - repeat split; eexists; (split; [vm_compute; reflexivity | reflexivity]).
Defined.

(** C3, as stated, fails.  The reply below is a JSON object with the keys
    [score] and [explanation] only, its score is 1; its explanation is a
    lone surrogate, so on a UTF-8 console the first print raises inside
    the [try] and the result is the degraded dictionary: the score that
    was present comes back as 0. *)
Lemma present_key_lost_when_print_fails :
  Double.json_loads (remove_code_fences (strip reply_surrogate))
    = Return (PyDict parsed_surrogate)
  /\ parsed_surrogate !! k_score = Some (PyInt 1)
  /\ parsed_surrogate !! k_missing = None
  /\ exists r,
       (Double.call_gemini (Return (Some reply_surrogate)) resume_txt jd w0).1
         = Return (PyDict r)
       /\ r !! k_score = Some (PyInt 0)
       /\ ~ field_rule parsed_surrogate r k_score (PyInt 0).
Proof.
  split; [vm_compute; reflexivity|].
  split; [vm_compute; reflexivity|].
  split; [vm_compute; reflexivity|].
  eexists. split; [vm_compute; reflexivity|].
  split; [vm_compute; reflexivity|].
  unfold field_rule. intros H. vm_compute in H. discriminate H.
Qed.

Lemma missing_keys_defaulted_witness :
  exists r,
    (Double.call_gemini (Return (Some reply_partial)) resume_txt jd w0).1
      = Return (PyDict r) /\
    field_rule (dict_of [(k_score, PyInt 7)]) r k_score (PyInt 0) /\
    field_rule (dict_of [(k_score, PyInt 7)]) r k_explanation (PyStr []) /\
    field_rule (dict_of [(k_score, PyInt 7)]) r k_missing (PyList []) /\
    field_rule (dict_of [(k_score, PyInt 7)]) r k_present (PyList []) /\
    dom r = four_keys.
Proof.
  refine (missing_keys_defaulted
            (Double.generate_content (Return (Some reply_partial)))
            Double.json_loads Double.console_write
            resume_txt jd w0 reply_partial
            (dict_of [(k_score, PyInt 7)]) _ _ _).
  - reflexivity.
  - vm_compute. reflexivity.
  - vm_compute. reflexivity.
Defined.

Lemma fenced_reply_unwrapped_witness :
  remove_code_fences
    (lit " " ++ fence_json ++ (nl ++ reply_full ++ nl) ++ fence ++ nl)
  = strip (nl ++ reply_full ++ nl).
Proof.
  refine (proj1
    (fenced_reply_unwrapped Double.json_loads
       (lit " ") fence_json (nl ++ reply_full ++ nl) nl _ _ _)).
  - reflexivity.
  - reflexivity.
  - left. reflexivity.
Defined.

Lemma missing_field_rejected_witness :
  Double.post_upload (Return (Some reply_full)) pages req_no_jd w0
  = (Return {| body := missing_fields_error; status := 400 |}, w0).
Proof.
  refine (proj1
    (missing_field_rejected
       (Double.generate_content (Return (Some reply_full)))
       (Double.fitz_open pages) Double.get_text Double.json_loads
       Double.console_write Double.encoder_error
       req_no_jd w0 _)).
  right. reflexivity.
Defined.

(** A resume of 4005 characters and a job description of 2007: the
    message holds the first 4000 and the first 2000, without the tails. *)
Lemma prompt_truncation_witness :
  map entry_texts (build_contents resume_long jd_long_a)
  = [ Some [Some (PyStr prompt)];
      Some [Some (PyStr (lit "Resume:" ++ [10%N] ++ replicate 4000 97%N))];
      Some [Some (PyStr (lit "Job Description:" ++ [10%N]
                           ++ replicate 2000 97%N))] ].
Proof.
  refine (proj1 (proj2
    (prompt_truncation
       (Double.generate_content (Return (Some reply_full)))
       Double.json_loads Double.console_write
       resume_long jd_long_a w0
       (replicate 4000 97%N) (replicate 2000 97%N) _ _))).
  - exists (lit " tail"). split; [reflexivity|]. left. reflexivity.
  - exists (lit " remote"). split; [reflexivity|]. left. reflexivity.
Defined.

(** C7, as stated, fails.  The bytes below start like a PDF but are cut
    short: no end-of-file marker, so not a well-formed PDF.  A library
    that repairs such a file, as the stand-in does, opens it; nothing is
    raised and the request is answered 200 with the analysis. *)
Lemma damaged_pdf_is_opened :
  has_pdf_header truncated_pdf = true
  /\ has_eof_marker truncated_pdf = false
  /\ (pdf_to_text (Double.fitz_open pages) Double.get_text
        (Stream truncated_pdf 0) w0).1
     = Return resume_txt
  /\ (Double.post_upload (Return (Some reply_full)) pages req_truncated w0).1
     = Return {| body := PyDict parsed_full; status := 200 |}.
Proof. repeat split; vm_compute; reflexivity. Qed.

Lemma malformed_pdf_server_error_witness :
  Double.post_upload (Return (Some reply_full)) pages req_not_pdf w0
  = (Return {| body := PyDict (dict_of [(lit "error",
                                         PyStr (exn_str Double.FileDataError))]);
               status := 500 |},
     World 0 [EvOpenPdf [x68; x69]]).
Proof.
  refine (proj1 (proj2 (proj2
    (malformed_pdf_server_error
       (Double.generate_content (Return (Some reply_full)))
       (Double.fitz_open pages) Double.get_text Double.json_loads
       Double.console_write Double.encoder_error
       req_not_pdf
       {| filename := lit "cv.txt"; stream := Stream [x68; x69] 0 |}
       jd w0 Double.FileDataError _ _ _ _))));
    reflexivity.
Defined.

Lemma same_submission_same_result_witness :
  (Double.post_upload (Return (Some reply_full)) pages req w0).1
  = (Double.post_upload (Return (Some reply_full)) pages req_again w_later).1.
Proof.
  refine (same_submission_same_result
            (Double.generate_content (Return (Some reply_full)))
            (Double.fitz_open pages) Double.get_text Double.json_loads
            Double.console_write Double.encoder_error
            req req_again w0 w_later _ _).
  - intros a a' model contents. reflexivity.
  - split; reflexivity.
Defined.

Lemma remove_code_fences_unfenced_witness :
  remove_code_fences (lit "  {} ") = strip (lit "  {} ").
Proof.
  refine (remove_code_fences_unfenced (lit "  {} ") _ _); reflexivity.
Defined.

Lemma call_gemini_four_keys_witness :
  exists d, PyDict parsed_full = PyDict d /\ dom d = four_keys /\
    (forall k, k ∉ four_keys -> d !! k = None).
Proof.
  refine (call_gemini_four_keys
            (Double.generate_content (Return (Some reply_extra)))
            Double.json_loads Double.console_write
            resume_txt jd w0 (PyDict parsed_full) _).
  vm_compute. reflexivity.
Defined.

(** * The pipeline run on the sample requests *)

(** The example of the specification: the stub's object comes back as the
    body, with status 200. *)
Example sample_full_reply :
  (Double.post_upload (Return (Some reply_full)) pages req w0).1
  = Return {| body := PyDict parsed_full; status := 200 |}.
Proof. vm_compute. reflexivity. Qed.

(** A reply that is not JSON. *)
Example sample_invalid_json :
  (Double.post_upload (Return (Some (lit "Sorry, I cannot help."))) pages req w0).1
  = Return {| body := degraded (Double.JSONDecodeError "Expecting value");
              status := 200 |}.
Proof. vm_compute. reflexivity. Qed.

(** A reply that is JSON but not an object. *)
Example sample_json_array :
  (Double.post_upload (Return (Some (lit "[1, 2]"))) pages req w0).1
  = Return {| body := degraded (AttributeError (lit "list") (lit "get"));
              status := 200 |}.
Proof. vm_compute. reflexivity. Qed.

(** A response without text. *)
Example sample_no_text :
  (Double.post_upload (Return None) pages req w0).1
  = Return {| body := degraded (AttributeError (lit "NoneType") (lit "strip"));
              status := 200 |}.
Proof. vm_compute. reflexivity. Qed.

(** [KeyboardInterrupt] is not an [Exception]: neither the [except] nor
    the error handler takes it. *)
Example sample_keyboard_interrupt :
  (Double.post_upload (Raise (Exn "KeyboardInterrupt" false [])) pages req w0).1
  = Raise (Exn "KeyboardInterrupt" false []).
Proof. vm_compute. reflexivity. Qed.

(** The first check prefers the JSON opener: a fence directly followed by
    [json] loses all seven characters. *)
Example sample_fence_then_json :
  remove_code_fences (fence ++ lit "json1" ++ fence) = lit "1".
Proof. vm_compute. reflexivity. Qed.

(** One opener and one closer only. *)
Example sample_double_fence :
  remove_code_fences (fence ++ fence ++ lit "{}" ++ fence ++ fence)
  = fence ++ lit "{}" ++ fence.
Proof. vm_compute. reflexivity. Qed.

(** What the request leaves in the log: the document, the model call, the
    eight writes of the two prints. *)
Example sample_full_reply_calls :
  map (fun ev => match ev with
                 | EvOpenPdf _ => 1 | EvGenerate _ _ => 2 | EvWrite _ => 3
                 end)
      (log (Double.post_upload (Return (Some reply_full)) pages req w0).2)
  = [1; 2; 3; 3; 3; 3; 3; 3; 3; 3].
Proof. vm_compute. reflexivity. Qed.

(** A reply the console cannot encode: the label and the separator of the
    first print are written, the reply is refused, nothing follows. *)
Example sample_refused_print :
  log (Double.call_gemini (Return (Some reply_surrogate)) resume_txt jd w0).2
  = [ EvGenerate model_id (build_contents resume_txt jd);
      EvWrite (lit "Gemini raw response:"); EvWrite (lit " ") ].
Proof. vm_compute. reflexivity. Qed.

(** * The further theorems at the sample requests *)

Lemma opener_without_closer_witness :
  remove_code_fences (lit " " ++ fence_json ++ (nl ++ reply_full))
  = strip (nl ++ reply_full).
Proof.
  refine (opener_without_closer (lit " ") fence_json (nl ++ reply_full) _ _ _).
  - reflexivity.
  - left. reflexivity.
  - reflexivity.
Defined.

Lemma pdf_to_text_concatenates_witness :
  (pdf_to_text (Double.fitz_open pages) Double.get_text
     (stream resume_file) w0).1
  = Return (concat (map Double.get_text pages)).
Proof.
  refine (pdf_to_text_concatenates (Double.fitz_open pages) Double.get_text
            (stream resume_file) pages w0 _).
  reflexivity.
Defined.

Lemma pdf_to_text_rewinds_witness :
  pdf_to_text (Double.fitz_open pages) Double.get_text
    (Stream Double.pdf_bytes 8) w0
  = pdf_to_text (Double.fitz_open pages) Double.get_text
      (Stream Double.pdf_bytes 0) w0.
Proof.
  refine (proj1 (pdf_to_text_rewinds (Double.fitz_open pages) Double.get_text
                   (Stream Double.pdf_bytes 8) (Stream Double.pdf_bytes 0)
                   w0 _)).
  reflexivity.
Defined.

Lemma post_upload_trace_witness :
  exists written,
    log (Double.post_upload (Return (Some reply_full)) pages req w0).2
    = log w0 ++ EvOpenPdf Double.pdf_bytes ::
        EvGenerate (lit "models/gemini-2.5-pro")
          (build_contents resume_txt jd)
          :: map EvWrite written.
Proof.
  refine (post_upload_trace
            (Double.generate_content (Return (Some reply_full)))
            (Double.fitz_open pages) Double.get_text Double.json_loads
            Double.console_write Double.encoder_error
            req resume_file jd w0 _ _); reflexivity.
Defined.

Lemma non_object_reply_degraded_witness :
  (Double.call_gemini (Return (Some (lit "[1, 2]"))) resume_txt jd w0).1
  = Return (degraded (AttributeError (lit "list") (lit "get"))).
Proof.
  refine (non_object_reply_degraded
            (Double.generate_content (Return (Some (lit "[1, 2]"))))
            Double.json_loads Double.console_write
            resume_txt jd w0 (lit "[1, 2]")
            (PyList [PyInt 1; PyInt 2]) _ _ _ _).
  - reflexivity.
  - vm_compute. reflexivity.
  - vm_compute. reflexivity.
  - intros d H. discriminate H.
Defined.

Lemma base_exception_passes_through_witness :
  (Double.post_upload (Raise keyboard_interrupt) pages req w0).1
  = Raise keyboard_interrupt.
Proof.
  refine (proj2
    (base_exception_passes_through
       (Double.generate_content (Raise keyboard_interrupt))
       (Double.fitz_open pages) Double.get_text Double.json_loads
       Double.console_write Double.encoder_error
       req resume_file jd pages w0 keyboard_interrupt _ _ _ _ _));
    reflexivity.
Defined.

(** A reply nested too deep for the stand-in encoder: both fields are
    there, the document opened, and the answer is 500. *)
Lemma post_upload_status_table_witness :
  (status deep_reply_response = 400 /\
   body deep_reply_response = missing_fields_error /\
   (files req !! lit "resume" = None \/ form req !! lit "jd_text" = None))
  \/ (exists (f : FileStorage) (jd : pystr) e,
        files req !! lit "resume" = Some f /\
        form req !! lit "jd_text" = Some jd /\
        is_Exception e = true /\
        status deep_reply_response = 500 /\
        body deep_reply_response
          = PyDict (dict_of [(lit "error", PyStr (exn_str e))]) /\
        (Double.fitz_open pages (buffer (stream f)) = Raise e
         \/ exists doc (v : pyval),
              Double.fitz_open pages (buffer (stream f)) = Return doc /\
              (Double.call_gemini (Return (Some reply_deep))
                 (pages_text Double.get_text doc) jd
                 (World (ai w0) (log w0 ++ [EvOpenPdf (buffer (stream f))]))).1
                = Return v /\
              2 < depth v /\
              jsonify Double.encoder_error v = Raise e))
  \/ (exists (f : FileStorage) (jd : pystr) doc (d : gmap pystr pyval),
        files req !! lit "resume" = Some f /\
        form req !! lit "jd_text" = Some jd /\
        Double.fitz_open pages (buffer (stream f)) = Return doc /\
        status deep_reply_response = 200 /\
        body deep_reply_response = PyDict d /\
        dom d = four_keys).
Proof.
  refine (post_upload_status_table
            (Double.generate_content (Return (Some reply_deep)))
            (Double.fitz_open pages) Double.get_text Double.json_loads
            Double.console_write Double.encoder_error
            req w0 deep_reply_response _).
  vm_compute. reflexivity.
Defined.

Lemma same_prefix_same_response_witness :
  (Double.post_upload (Return (Some reply_full)) pages req_long_a w0).1
  = (Double.post_upload (Return (Some reply_full)) pages req_long_b w0).1.
Proof.
  refine (same_prefix_same_response
            (Double.generate_content (Return (Some reply_full)))
            (Double.fitz_open pages) Double.get_text Double.json_loads
            Double.console_write Double.encoder_error
            req_long_a req_long_b resume_file
            {| filename := lit "cv2.pdf";
               stream := Stream (Double.pdf_bytes ++ [x0a]) 0 |}
            jd_long_a jd_long_b pages pages w0 _ _ _ _ _ _ _ _);
    reflexivity.
Defined.

Lemma request_read_for_two_fields_witness :
  Double.post_upload (Return (Some reply_full)) pages req w0
  = Double.post_upload (Return (Some reply_full)) pages req_again w0.
Proof.
  refine (request_read_for_two_fields
            (Double.generate_content (Return (Some reply_full)))
            (Double.fitz_open pages) Double.get_text Double.json_loads
            Double.console_write Double.encoder_error
            req req_again w0 _).
  split; reflexivity.
Defined.

